(** * Inbound stream handling of the Kademlia DHT node (dht_net.go)

    A shallow embedding of [handleNewStream] and [handleNewMessage] from
    [dht_net.go], with the instrumentation names of [metrics/metrics.go].

    The session loop talks to collaborators that live outside the two files:
    the mode flag, the msgio frame reader, the protobuf decoder, the handler
    table, the request hook, the response writer, the clock and the logger.
    They are parameters of the development.  Whatever a collaborator touches
    (the stream, the node, the wall clock) is threaded through one value of
    type [World]; every call the session makes is also appended to a call
    log, so that statements about what was called, how often and in which
    order are statements about a list. *)

From Stdlib Require Import List String ZArith Bool Lia.
From Stdlib Require Import Floats.SpecFloat.
From Stdlib Require Import Strings.Byte.
From Stdlib Require DecimalString.
Import ListNotations.
Local Open Scope string_scope.
Local Open Scope Z_scope.
Local Open Scope list_scope.

Set Implicit Arguments.

(** ** Plain data *)

(** Go [error] values as the loop distinguishes them: the sentinel [io.EOF],
    compared by identity, and every other error, of which only the text
    ([err.Error()]) is looked at. *)
Inductive error : Type :=
| io_EOF
| errorString (text : string).

Definition Error (e : error) : string :=
  match e with
  | io_EOF => "EOF"
  | errorString s => s
  end.

Definition is_io_EOF (e : error) : bool :=
  match e with
  | io_EOF => true
  | errorString _ => false
  end.

(** [time.Duration] counts nanoseconds. *)
Definition Duration := Z.
Definition Millisecond : Duration := 1000000.
Definition Minute : Duration := 60000000000.

(** Go's [float64]: IEEE 754 binary64, with 53 bits of precision. *)
Definition float64 : Type := spec_float.

(** [float64(n)] for an [int64]: the nearest double, ties to even. *)
Definition float64_of_int64 (n : Z) : float64 := binary_normalize 53 1024 n 0 false.

(** [x / y] on [float64]. *)
Definition float64_quo (x y : float64) : float64 := SFdiv 53 1024 x y.

Arguments float64_of_int64 : simpl never.
Arguments float64_quo : simpl never.

(** [var dhtStreamIdleTimeout = 1 * time.Minute] *)
Definition dhtStreamIdleTimeout : Duration := 1 * Minute.

(** ** metrics/metrics.go *)
Module metrics.

Definition KeyMessageType : string := "message_type".

(** The [Int64Counter] instruments. *)
Inductive Counter : Type :=
| ReceivedMessages
| ReceivedMessageErrors
| ReceivedBytes
| SentMessages
| SentMessageErrors
| SentRequests
| SentRequestErrors
| SentBytes.

(** The [Float64Histogram] instruments. *)
Inductive Histogram : Type :=
| InboundRequestLatency
| OutboundRequestLatency.

Definition counter_name (c : Counter) : string :=
  match c with
  | ReceivedMessages => "libp2p.io/dht/kad/received_messages"
  | ReceivedMessageErrors => "libp2p.io/dht/kad/received_message_errors"
  | ReceivedBytes => "libp2p.io/dht/kad/received_bytes"
  | SentMessages => "libp2p.io/dht/kad/sent_messages"
  | SentMessageErrors => "libp2p.io/dht/kad/sent_message_errors"
  | SentRequests => "libp2p.io/dht/kad/sent_requests"
  | SentRequestErrors => "libp2p.io/dht/kad/sent_request_errors"
  | SentBytes => "libp2p.io/dht/kad/sent_bytes"
  end.

Definition histogram_name (h : Histogram) : string :=
  match h with
  | InboundRequestLatency => "libp2p.io/dht/kad/inbound_request_latency"
  | OutboundRequestLatency => "libp2p.io/dht/kad/outbound_request_latency"
  end.

Definition Counter_eqb (a b : Counter) : bool :=
  match a, b with
  | ReceivedMessages, ReceivedMessages
  | ReceivedMessageErrors, ReceivedMessageErrors
  | ReceivedBytes, ReceivedBytes
  | SentMessages, SentMessages
  | SentMessageErrors, SentMessageErrors
  | SentRequests, SentRequests
  | SentRequestErrors, SentRequestErrors
  | SentBytes, SentBytes => true
  | _, _ => false
  end.

(** *** The network size gauge

    [networkSize int64] is a package variable, zero until set; it is
    written with [atomic.StoreInt64] and read with [atomic.LoadInt64], so
    the accesses of concurrent callers form one sequence. *)
Definition networkSize_init : Z := 0.

(** [SetNetworkSize(size)] *)
Definition SetNetworkSize (size : Z) (networkSize : Z) : Z := size.

(** What [observer.Observe(value, attributes)] is handed: the value and the
    one attribute, as key and text. *)
Definition Observation : Type := (Z * (string * string))%type.

(** [networkSizeCallback(ctx, observer)]: the observations made, the error
    returned (always nil) and the variable afterwards. *)
Definition networkSizeCallback (networkSize : Z)
  : list Observation * option error * Z :=
  ([(networkSize, ("instance", "default"))], None, networkSize).

(** The accesses one after the other: a history of sets and collections. *)
Inductive GaugeOp : Type :=
| OpSet (size : Z)
| OpCollect.

Definition isSet (o : GaugeOp) : bool :=
  match o with OpSet _ => true | OpCollect => false end.

(** The observations of a history, and the variable it leaves. *)
Fixpoint runGauge (h : list GaugeOp) (networkSize : Z)
  : list Observation * Z :=
  match h with
  | [] => ([], networkSize)
  | OpSet size :: h' => runGauge h' (SetNetworkSize size networkSize)
  | OpCollect :: h' =>
      let '(obs, _, n1) := networkSizeCallback networkSize in
      let '(rest, n2) := runGauge h' n1 in
      (obs ++ rest, n2)
  end.

End metrics.
Import metrics.

(** What one pass through the body of the [for] loop decides: go round again
    ([continue], or falling off the end of the body) or [return b]. *)
Inductive Outcome : Type :=
| Continue
| Return (b : bool).

(** ** Collaborators

    What the two source files import and do not define: the world the calls
    act on, peer identities, the wire message with the accessors the loop
    uses, its decoder, the clock and the log level. *)
Class Collaborators : Type := {
  (** Everything outside the session that its calls may read or change. *)
  World : Type;
  (** The node's operating mode, of which the loop only asks whether it is
      [modeServer]. *)
  mode : Type;
  modeServer : mode;
  mode_eqb : mode -> mode -> bool;
  mode_eqb_eq : forall a b, mode_eqb a b = true <-> a = b;
  (** [peer.ID] *)
  PeerID : Type;
  (** [pb.Message] and [pb.Message_MessageType] *)
  Message : Type;
  MessageType : Type;
  (** [req.GetType()] and [req.GetType().String()] *)
  GetType : Message -> MessageType;
  MessageType_String : MessageType -> string;
  (** [req.Unmarshal(msgbytes)] on a fresh [pb.Message] *)
  Unmarshal : list byte -> Message + error;
  (** [time.Now()], in nanoseconds *)
  timeNow : World -> Z * World;
  (** Whether the logger is enabled at debug level, that is whether
      [baseLogger.Check(zap.DebugLevel, _)] is non-nil. *)
  debugLevel : bool
}.

Section Session.

Context `{Collaborators}.

(** A registered handler: [(ctx, peer, &req) -> (resp, err)].  Either, both
    or none of [resp] and [err] may be nil. *)
Definition dhtHandler : Type :=
  PeerID -> Message -> World -> (option Message * option error) * World.

(** The fields and methods of [*IpfsDHT] the session uses.  The hook is
    handed [&req]; the request as the hook leaves it is what the loop goes
    on with. *)
Record IpfsDHT : Type := {
  getMode : World -> mode * World;
  onRequestHook : option (Message -> World -> Message * World);
  handlerForMsgType : MessageType -> option dhtHandler
}.

(** A [network.Stream] wrapped as the session uses it: [ReadMsg] is
    [msgio.NewVarintReaderSize(s, network.MessageSizeMax).ReadMsg],
    [WriteMsg] is [net.WriteMsg(s, _)]. *)
Record Stream : Type := {
  RemotePeer : PeerID;
  ReadMsg : World -> (list byte * option error) * World;
  WriteMsg : Message -> World -> option error * World;
  Close : World -> option error * World;
  Reset : World -> option error * World
}.

(** *** The call log *)

Inductive Event : Type :=
| EvAfterFunc (d : Duration)      (* time.AfterFunc(d, func() { s.Reset() }) *)
| EvTimerReset (d : Duration)     (* timer.Reset(d) *)
| EvTimerStop                     (* timer.Stop() *)
| EvGetMode (m : mode)
| EvReadMsg (msgbytes : list byte) (err : option error)
| EvReleaseMsg (msgbytes : list byte)
| EvUnmarshal (msgbytes : list byte) (ok : bool)
| EvLog (msg : string)
| EvAdd (c : Counter) (incr : Z) (message_type : string)
| EvRecord (h : Histogram) (value : float64) (message_type : string)
| EvRequestHook (req : Message)
| EvHandlerForMsgType (t : MessageType) (found : bool)
| EvHandler (req : Message) (resp : option Message) (err : option error)
| EvWriteMsg (resp : Message) (err : option error)
| EvClose
| EvReset.

(** *** Computations: a world in, a result, the calls made and a world out *)

Definition M (A : Type) : Type := World -> A * list Event * World.

Definition ret {A} (a : A) : M A := fun w => (a, [], w).

Definition bind {A B} (m : M A) (f : A -> M B) : M B :=
  fun w =>
    let '(a, t1, w1) := m w in
    let '(b, t2, w2) := f a w1 in
    (b, t1 ++ t2, w2).

Definition emit (e : Event) : M unit := fun w => (tt, [e], w).

(** A call into a collaborator, logged by [ev] applied to its result. *)
Definition call {A} (op : World -> A * World) (ev : A -> Event) : M A :=
  fun w => let '(a, w1) := op w in (a, [ev a], w1).

(** A call that leaves no entry in the log (reading the clock). *)
Definition quiet {A} (op : World -> A * World) : M A :=
  fun w => let '(a, w1) := op w in (a, [], w1).

Definition when (b : bool) (m : M unit) : M unit := if b then m else ret tt.

Notation "x <- m ;; k" := (bind m (fun x => k))
  (at level 61, m at next level, right associativity).
Notation "m ;;; k" := (bind m (fun _ => k))
  (at level 61, right associativity).

(** [metrics.C.Add(ctx, n, attributes)] with
    [attributes = metric.WithAttributes(attribute.String("message_type", tag))]. *)
Definition Add (c : Counter) (n : Z) (tag : string) : M unit :=
  emit (EvAdd c n tag).

(** [metrics.H.Record(ctx, v, attributes)] *)
Definition Record_ (h : Histogram) (v : float64) (tag : string) : M unit :=
  emit (EvRecord h v tag).

(** [if c := baseLogger.Check(zap.DebugLevel, msg); c != nil { c.Write(...) }];
    the fields written with the line are left out. *)
Definition debugLog (msg : string) : M unit :=
  when debugLevel (emit (EvLog msg)).

Definition is_ok {A B} (r : A + B) : bool :=
  match r with inl _ => true | inr _ => false end.

Definition is_some {A} (o : option A) : bool :=
  match o with Some _ => true | None => false end.

(** *** handleNewMessage: one pass through the loop body (lines 46-160) *)

Definition iteration (dht : IpfsDHT) (s : Stream) (mPeer : PeerID) : M Outcome :=
  m <- call (getMode dht) EvGetMode ;;
  if negb (mode_eqb m modeServer) then
    debugLog "ignoring incoming dht message while not in server mode" ;;;
    ret (Return false)
  else
  rd <- call (ReadMsg s) (fun r => EvReadMsg (fst r) (snd r)) ;;
  let msgbytes := fst rd in
  let msgLen := Z.of_nat (List.length msgbytes) in
  match snd rd with
  | Some err =>
      emit (EvReleaseMsg msgbytes) ;;;
      if is_io_EOF err then ret (Return true) else
      when (debugLevel && negb (String.eqb (Error err) "stream reset"))
           (emit (EvLog "error reading message")) ;;;
      when (0 <? msgLen)
           (Add ReceivedMessages 1 "UNKNOWN" ;;;
            Add ReceivedMessageErrors 1 "UNKNOWN" ;;;
            Add ReceivedBytes msgLen "UNKNOWN") ;;;
      ret (Return false)
  | None =>
      let dec := Unmarshal msgbytes in
      emit (EvUnmarshal msgbytes (is_ok dec)) ;;;
      emit (EvReleaseMsg msgbytes) ;;;
      match dec with
      | inr _ =>
          debugLog "error unmarshaling message" ;;;
          Add ReceivedMessages 1 "UNKNOWN" ;;;
          Add ReceivedMessageErrors 1 "UNKNOWN" ;;;
          Add ReceivedBytes msgLen "UNKNOWN" ;;;
          ret (Return false)
      | inl req0 =>
          emit (EvTimerReset dhtStreamIdleTimeout) ;;;
          startTime <- quiet timeNow ;;
          let attributes := MessageType_String (GetType req0) in
          Add ReceivedMessages 1 attributes ;;;
          Add ReceivedBytes msgLen attributes ;;;
          req <- match onRequestHook dht with
                 | Some hook => call (hook req0) (fun _ => EvRequestHook req0)
                 | None => ret req0
                 end ;;
          let handler := handlerForMsgType dht (GetType req) in
          emit (EvHandlerForMsgType (GetType req) (is_some handler)) ;;;
          match handler with
          | None =>
              Add ReceivedMessageErrors 1 attributes ;;;
              debugLog "can't handle received message" ;;;
              ret (Return false)
          | Some handler =>
              debugLog "handling message" ;;;
              hr <- call (handler mPeer req)
                         (fun r => EvHandler req (fst r) (snd r)) ;;
              match snd hr with
              | Some _ =>
                  Add ReceivedMessageErrors 1 attributes ;;;
                  debugLog "error handling message" ;;;
                  ret (Return false)
              | None =>
                  when debugLevel
                       (_ <- quiet timeNow ;; emit (EvLog "handled message")) ;;;
                  match fst hr with
                  | None => ret Continue
                  | Some resp =>
                      werr <- call (WriteMsg s resp) (EvWriteMsg resp) ;;
                      match werr with
                      | Some _ =>
                          Add ReceivedMessageErrors 1 attributes ;;;
                          debugLog "error writing response" ;;;
                          ret (Return false)
                      | None =>
                          now_ <- quiet timeNow ;;
                          let elapsedTime := now_ - startTime in
                          debugLog "responded to message" ;;;
                          let latencyMillis :=
                            float64_quo (float64_of_int64 elapsedTime)
                                        (float64_of_int64 Millisecond) in
                          Record_ InboundRequestLatency latencyMillis attributes ;;;
                          ret Continue
                      end
                  end
              end
          end
      end
  end.

(** *** The [for] loop, run for at most [fuel] passes

    [None] means the session is still running after [fuel] passes. *)
Fixpoint loop (fuel : nat) (dht : IpfsDHT) (s : Stream) (mPeer : PeerID)
  : M (option bool) :=
  match fuel with
  | O => ret None
  | S fuel' =>
      o <- iteration dht s mPeer ;;
      match o with
      | Continue => loop fuel' dht s mPeer
      | Return b => ret (Some b)
      end
  end.

(** *** handleNewMessage (lines 36-162)

    The watchdog is armed before the loop; the deferred [timer.Stop()] runs
    when the function returns. *)
Definition handleNewMessage (fuel : nat) (dht : IpfsDHT) (s : Stream)
  : M (option bool) :=
  let mPeer := RemotePeer s in
  emit (EvAfterFunc dhtStreamIdleTimeout) ;;;
  r <- loop fuel dht s mPeer ;;
  match r with
  | Some b => emit EvTimerStop ;;; ret (Some b)
  | None => ret None
  end.

(** *** handleNewStream (lines 25-33)

    [Some tt] when the handler has returned, [None] while the session is
    still running. *)
Definition handleNewStream (fuel : nat) (dht : IpfsDHT) (s : Stream)
  : M (option unit) :=
  r <- handleNewMessage fuel dht s ;;
  match r with
  | Some true => _ <- call (Close s) (fun _ => EvClose) ;; ret (Some tt)
  | Some false => _ <- call (Reset s) (fun _ => EvReset) ;; ret (Some tt)
  | None => ret None
  end.

(** *** Reading the call log *)

(** The entries of a log selected and projected by [f], in order. *)
Fixpoint pick {A} (f : Event -> option A) (t : list Event) : list A :=
  match t with
  | [] => []
  | e :: t' =>
      match f e with
      | Some a => a :: pick f t'
      | None => pick f t'
      end
  end.

(** Counter increments, as (instrument, amount, message type). *)
Definition adds : list Event -> list (Counter * Z * string) :=
  pick (fun e => match e with EvAdd c n tag => Some (c, n, tag) | _ => None end).

(** Increments of one counter, as (amount, message type). *)
Definition addsOf (c : Counter) : list Event -> list (Z * string) :=
  pick (fun e => match e with
                 | EvAdd c' n tag => if Counter_eqb c c' then Some (n, tag) else None
                 | _ => None
                 end).

(** Histogram samples, as (instrument, value, message type). *)
Definition records : list Event -> list (Histogram * float64 * string) :=
  pick (fun e => match e with EvRecord h v tag => Some (h, v, tag) | _ => None end).

(** Frames asked of the reader. *)
Definition reads : list Event -> list (list byte * option error) :=
  pick (fun e => match e with EvReadMsg b err => Some (b, err) | _ => None end).

(** Responses handed to the writer, with the writer's verdict. *)
Definition writes : list Event -> list (Message * option error) :=
  pick (fun e => match e with EvWriteMsg r err => Some (r, err) | _ => None end).

(** Handler invocations, by request. *)
Definition handlerCalls : list Event -> list Message :=
  pick (fun e => match e with EvHandler r _ _ => Some r | _ => None end).

(** Decode attempts, by payload. *)
Definition decodes : list Event -> list (list byte) :=
  pick (fun e => match e with EvUnmarshal b _ => Some b | _ => None end).

(** Watchdog rearms, by duration. *)
Definition rearms : list Event -> list Duration :=
  pick (fun e => match e with EvTimerReset d => Some d | _ => None end).


(** Entries that only instrument or log: counter increments, histogram
    samples, log lines and the deferred timer stop. *)
Definition passive (e : Event) : bool :=
  match e with
  | EvAdd _ _ _ | EvRecord _ _ _ | EvLog _ | EvTimerStop => true
  | _ => false
  end.

(** The debug line [msg], present when debug logging is on. *)
Definition debugLine (msg : string) : list Event :=
  if debugLevel then [EvLog msg] else [].

(** Responses the writer accepted. *)
Definition delivered : list Event -> list Message :=
  pick (fun e => match e with EvWriteMsg r None => Some r | _ => None end).

(** [errorThenPassive t]: the log has an increment of
    ReceivedMessageErrors, and after the first one nothing but
    instrumentation, log lines and the timer stop. *)
Fixpoint errorThenPassive (t : list Event) : bool :=
  match t with
  | [] => false
  | EvAdd c _ _ :: t' =>
      if Counter_eqb c ReceivedMessageErrors then forallb passive t'
      else errorThenPassive t'
  | _ :: t' => errorThenPassive t'
  end.

(** *** Passes that go round again *)

(** [continues k w]: the first [k] passes from [w] all go round again;
    the calls they made and the world they leave. *)
Fixpoint continues (k : nat) (dht : IpfsDHT) (s : Stream) (w : World)
  : option (list Event * World) :=
  match k with
  | O => Some ([], w)
  | S k' =>
      match iteration dht s (RemotePeer s) w with
      | (Continue, t1, w1) =>
          match continues k' dht s w1 with
          | Some (t2, w2) => Some (t1 ++ t2, w2)
          | None => None
          end
      | (Return _, _, _) => None
      end
  end.

(** *** Names for what a pass goes through

    Statements about a pass name the intermediate worlds with these. *)

(** The request as the hook leaves it, and the world after the hook. *)
Definition hooked (dht : IpfsDHT) (req0 : Message) (w : World) : Message * World :=
  match onRequestHook dht with
  | Some hook => hook req0 w
  | None => (req0, w)
  end.

Definition hookLine (dht : IpfsDHT) (req0 : Message) : list Event :=
  match onRequestHook dht with
  | Some _ => [EvRequestHook req0]
  | None => []
  end.

(** The world after the "handled message" line, which reads the clock when
    debug logging is on. *)
Definition handledLogged (w : World) : World :=
  if debugLevel then snd (timeNow w) else w.

(** The entries a pass leaves up to and including the hook once a frame
    was read and decoded into [req0] (lines 46-97). *)
Definition received (dht : IpfsDHT) (msgbytes : list byte) (req0 : Message)
  : list Event :=
  [EvGetMode modeServer; EvReadMsg msgbytes None; EvUnmarshal msgbytes true;
   EvReleaseMsg msgbytes; EvTimerReset dhtStreamIdleTimeout;
   EvAdd ReceivedMessages 1 (MessageType_String (GetType req0));
   EvAdd ReceivedBytes (Z.of_nat (List.length msgbytes))
         (MessageType_String (GetType req0))]
  ++ hookLine dht req0.

(** The three increments tagged "UNKNOWN" (lines 66-69 and 80-83). *)
Definition unknownTriple (msgbytes : list byte) : list Event :=
  [EvAdd ReceivedMessages 1 "UNKNOWN";
   EvAdd ReceivedMessageErrors 1 "UNKNOWN";
   EvAdd ReceivedBytes (Z.of_nat (List.length msgbytes)) "UNKNOWN"].

(** The "error reading message" line: written at debug level unless the
    error reads "stream reset" (line 61). *)
Definition readErrorLine (err : error) : list Event :=
  if debugLevel && negb (String.eqb (Error err) "stream reset")
  then [EvLog "error reading message"] else [].

(** *** The paths through one pass, as relations

    Lines 99-160: lookup, handler, response.  [tag] is the message type
    the pass instruments with, [t0] the clock reading of line 89, [req]
    the request after the hook. *)
Inductive Dispatch (dht : IpfsDHT) (s : Stream) (tag : string) (t0 : Z)
              (req : Message) (w4 : World)
  : Outcome * list Event * World -> Prop :=
| DispatchNoHandler :
    handlerForMsgType dht (GetType req) = None ->
    Dispatch dht s tag t0 req w4
      (Return false,
       [EvHandlerForMsgType (GetType req) false;
        EvAdd ReceivedMessageErrors 1 tag]
         ++ debugLine "can't handle received message",
       w4)
| DispatchHandlerError h resp e w5 :
    handlerForMsgType dht (GetType req) = Some h ->
    h (RemotePeer s) req w4 = ((resp, Some e), w5) ->
    Dispatch dht s tag t0 req w4
      (Return false,
       [EvHandlerForMsgType (GetType req) true]
         ++ debugLine "handling message"
         ++ [EvHandler req resp (Some e); EvAdd ReceivedMessageErrors 1 tag]
         ++ debugLine "error handling message",
       w5)
| DispatchOneWay h w5 :
    handlerForMsgType dht (GetType req) = Some h ->
    h (RemotePeer s) req w4 = ((None, None), w5) ->
    Dispatch dht s tag t0 req w4
      (Continue,
       [EvHandlerForMsgType (GetType req) true]
         ++ debugLine "handling message"
         ++ [EvHandler req None None]
         ++ debugLine "handled message",
       handledLogged w5)
| DispatchWriteError h resp w5 e w6 :
    handlerForMsgType dht (GetType req) = Some h ->
    h (RemotePeer s) req w4 = ((Some resp, None), w5) ->
    WriteMsg s resp (handledLogged w5) = (Some e, w6) ->
    Dispatch dht s tag t0 req w4
      (Return false,
       [EvHandlerForMsgType (GetType req) true]
         ++ debugLine "handling message"
         ++ [EvHandler req (Some resp) None]
         ++ debugLine "handled message"
         ++ [EvWriteMsg resp (Some e); EvAdd ReceivedMessageErrors 1 tag]
         ++ debugLine "error writing response",
       w6)
| DispatchResponded h resp w5 w6 t1 w7 :
    handlerForMsgType dht (GetType req) = Some h ->
    h (RemotePeer s) req w4 = ((Some resp, None), w5) ->
    WriteMsg s resp (handledLogged w5) = (None, w6) ->
    timeNow w6 = (t1, w7) ->
    Dispatch dht s tag t0 req w4
      (Continue,
       [EvHandlerForMsgType (GetType req) true]
         ++ debugLine "handling message"
         ++ [EvHandler req (Some resp) None]
         ++ debugLine "handled message"
         ++ [EvWriteMsg resp None]
         ++ debugLine "responded to message"
         ++ [EvRecord InboundRequestLatency
                      (float64_quo (float64_of_int64 (t1 - t0))
                                   (float64_of_int64 Millisecond))
                      tag],
       w7).

(** [Pass dht s w (o, t, w')]: from [w], one pass ends with [o], logs [t]
    and leaves [w'].  One constructor per way through lines 46-160. *)
Inductive Pass (dht : IpfsDHT) (s : Stream) (w : World)
  : Outcome * list Event * World -> Prop :=
| PassGate m w1 :
    getMode dht w = (m, w1) -> m <> modeServer ->
    Pass dht s w
      (Return false,
       EvGetMode m
         :: debugLine "ignoring incoming dht message while not in server mode",
       w1)
| PassEOF w1 b w2 :
    getMode dht w = (modeServer, w1) ->
    ReadMsg s w1 = ((b, Some io_EOF), w2) ->
    Pass dht s w
      (Return true,
       [EvGetMode modeServer; EvReadMsg b (Some io_EOF); EvReleaseMsg b], w2)
| PassReadError w1 b e w2 :
    getMode dht w = (modeServer, w1) ->
    ReadMsg s w1 = ((b, Some e), w2) ->
    e <> io_EOF ->
    Pass dht s w
      (Return false,
       [EvGetMode modeServer; EvReadMsg b (Some e); EvReleaseMsg b]
         ++ readErrorLine e
         ++ (if 0 <? Z.of_nat (List.length b) then unknownTriple b else []),
       w2)
| PassDecodeError w1 b w2 e :
    getMode dht w = (modeServer, w1) ->
    ReadMsg s w1 = ((b, None), w2) ->
    Unmarshal b = inr e ->
    Pass dht s w
      (Return false,
       [EvGetMode modeServer; EvReadMsg b None; EvUnmarshal b false;
        EvReleaseMsg b]
         ++ debugLine "error unmarshaling message" ++ unknownTriple b,
       w2)
| PassDecoded w1 b w2 req0 t0 w3 req w4 o t w' :
    getMode dht w = (modeServer, w1) ->
    ReadMsg s w1 = ((b, None), w2) ->
    Unmarshal b = inl req0 ->
    timeNow w2 = (t0, w3) ->
    hooked dht req0 w3 = (req, w4) ->
    Dispatch dht s (MessageType_String (GetType req0)) t0 req w4 (o, t, w') ->
    Pass dht s w (o, received dht b req0 ++ t, w').

(** *** Further readings of the call log *)

(** [time.AfterFunc] calls, by duration, and [timer.Stop()] calls. *)
Definition arms : list Event -> list Duration :=
  pick (fun e => match e with EvAfterFunc d => Some d | _ => None end).

Definition stops : list Event -> list unit :=
  pick (fun e => match e with EvTimerStop => Some tt | _ => None end).

(** Buffers handed back to the reader's pool with [r.ReleaseMsg]. *)
Definition releases : list Event -> list (list byte) :=
  pick (fun e => match e with EvReleaseMsg b => Some b | _ => None end).

(** Calls of the request hook, by the request it was handed. *)
Definition hookCalls : list Event -> list Message :=
  pick (fun e => match e with EvRequestHook r => Some r | _ => None end).

(** Handler lookups, by the type looked up. *)
Definition lookups : list Event -> list MessageType :=
  pick (fun e => match e with EvHandlerForMsgType t _ => Some t | _ => None end).

(** Debug lines written. *)
Definition logLines : list Event -> list string :=
  pick (fun e => match e with EvLog msg => Some msg | _ => None end).

(** The message type of every counter increment and histogram sample. *)
Definition tags : list Event -> list string :=
  pick (fun e => match e with
                 | EvAdd _ _ tag | EvRecord _ _ tag => Some tag
                 | _ => None
                 end).

(** Reads ([true]) and writes ([false]) on the stream, in order. *)
Definition ioTrace : list Event -> list bool :=
  pick (fun e => match e with
                 | EvReadMsg _ _ => Some true
                 | EvWriteMsg _ _ => Some false
                 | _ => None
                 end).

(** [readThenWrite l]: every write comes right after a read, so no write
    opens the trace and no two writes follow each other. *)
Fixpoint readThenWrite (l : list bool) : bool :=
  match l with
  | [] => true
  | false :: _ => false
  | true :: l' =>
      match l' with
      | false :: l'' => readThenWrite l''
      | _ => readThenWrite l'
      end
  end.

(** Instrumentation of the inbound leg only: the three received counters,
    incremented by a non-negative amount, and the inbound latency. *)
Definition inboundOnly (e : Event) : bool :=
  match e with
  | EvAdd ReceivedMessages n _
  | EvAdd ReceivedMessageErrors n _
  | EvAdd ReceivedBytes n _ => 0 <=? n
  | EvAdd _ _ _ => false
  | EvRecord InboundRequestLatency _ _ => true
  | EvRecord _ _ _ => false
  | _ => true
  end.

Definition total (l : list Z) : Z := fold_right Z.add 0 l.

(** The amounts added to ReceivedBytes. *)
Definition countedBytes : list Event -> list Z :=
  pick (fun e => match e with
                 | EvAdd ReceivedBytes n _ => Some n
                 | _ => None
                 end).

(** The payload lengths of the reads that did not report [io.EOF]. *)
Definition readBytes : list Event -> list Z :=
  pick (fun e => match e with
                 | EvReadMsg b (Some io_EOF) => None
                 | EvReadMsg b _ => Some (Z.of_nat (List.length b))
                 | _ => None
                 end).

End Session.

(** ** A scripted environment

    A small concrete instance of the collaborators, used to run the session
    on explicit inputs: the mode flag, the reader and the writer answer from
    scripts, the clock advances by a quarter of a millisecond per reading,
    and the wire format is one type byte followed by the key. *)
Module Fixture.

Definition PUT_VALUE : Z := 0.
Definition GET_VALUE : Z := 1.
Definition ADD_PROVIDER : Z := 2.
Definition GET_PROVIDERS : Z := 3.
Definition FIND_NODE : Z := 4.
Definition PING : Z := 5.

(** The generated [String()] of a protobuf enum: the name of a known
    value, the number in decimal otherwise. *)
Definition typeName (t : Z) : string :=
  if t =? PUT_VALUE then "PUT_VALUE"
  else if t =? GET_VALUE then "GET_VALUE"
  else if t =? ADD_PROVIDER then "ADD_PROVIDER"
  else if t =? GET_PROVIDERS then "GET_PROVIDERS"
  else if t =? FIND_NODE then "FIND_NODE"
  else if t =? PING then "PING"
  else DecimalString.NilZero.string_of_int (Z.to_int t).

Record msg : Type := { Type_ : Z; Key : list byte }.

Inductive nodeMode : Type :=
| Server
| Client.

Definition nodeMode_eqb (a b : nodeMode) : bool :=
  match a, b with
  | Server, Server => true
  | Client, Client => true
  | _, _ => false
  end.

Lemma nodeMode_eqb_eq (a b : nodeMode) : nodeMode_eqb a b = true <-> a = b.
Proof. destruct a, b; simpl; split; congruence. Qed.

(** The empty payload is the zero message; a type byte of 0x80 and above
    does not decode. *)
Definition decode (b : list byte) : msg + error :=
  match b with
  | [] => inl {| Type_ := 0; Key := [] |}
  | t :: key =>
      let n := Z.of_N (Byte.to_N t) in
      if n <? 128 then inl {| Type_ := n; Key := key |}
      else inr (errorString "proto: illegal type byte")
  end.

Record world : Type := {
  modeScript : list nodeMode;                   (* answers of getMode *)
  inbox : list (list byte * option error);      (* answers of ReadMsg *)
  writeScript : list (option error);            (* answers of WriteMsg *)
  wire : list msg;                              (* responses delivered *)
  clock : Z;
  closed : bool;
  aborted : bool
}.

Definition tick (w : world) : Z * world :=
  (clock w,
   {| modeScript := modeScript w; inbox := inbox w;
      writeScript := writeScript w; wire := wire w;
      clock := clock w + 250000; closed := closed w; aborted := aborted w |}).

#[local] Instance fixture : Collaborators := {|
  World := world;
  mode := nodeMode;
  modeServer := Server;
  mode_eqb := nodeMode_eqb;
  mode_eqb_eq := nodeMode_eqb_eq;
  PeerID := string;
  Message := msg;
  MessageType := Z;
  GetType := Type_;
  MessageType_String := typeName;
  Unmarshal := decode;
  timeNow := tick;
  debugLevel := false
|}.

(** An exhausted mode script answers server mode. *)
Definition loadMode (w : world) : nodeMode * world :=
  match modeScript w with
  | [] => (Server, w)
  | m :: ms =>
      (m, {| modeScript := ms; inbox := inbox w;
             writeScript := writeScript w; wire := wire w;
             clock := clock w; closed := closed w; aborted := aborted w |})
  end.

(** An exhausted inbox is a clean end of stream. *)
Definition readFrame (w : world) : (list byte * option error) * world :=
  match inbox w with
  | [] => (([], Some io_EOF), w)
  | r :: rs =>
      (r, {| modeScript := modeScript w; inbox := rs;
             writeScript := writeScript w; wire := wire w;
             clock := clock w; closed := closed w; aborted := aborted w |})
  end.

(** An exhausted write script lets every write succeed. *)
Definition writeFrame (resp : msg) (w : world) : option error * world :=
  match writeScript w with
  | Some e :: rest =>
      (Some e, {| modeScript := modeScript w; inbox := inbox w;
                  writeScript := rest; wire := wire w;
                  clock := clock w; closed := closed w; aborted := aborted w |})
  | None :: rest =>
      (None, {| modeScript := modeScript w; inbox := inbox w;
                writeScript := rest; wire := wire w ++ [resp];
                clock := clock w; closed := closed w; aborted := aborted w |})
  | [] =>
      (None, {| modeScript := modeScript w; inbox := inbox w;
                writeScript := []; wire := wire w ++ [resp];
                clock := clock w; closed := closed w; aborted := aborted w |})
  end.

Definition closeStream (w : world) : option error * world :=
  (None, {| modeScript := modeScript w; inbox := inbox w;
            writeScript := writeScript w; wire := wire w;
            clock := clock w; closed := true; aborted := aborted w |}).

Definition resetStream (w : world) : option error * world :=
  (None, {| modeScript := modeScript w; inbox := inbox w;
            writeScript := writeScript w; wire := wire w;
            clock := clock w; closed := closed w; aborted := true |}).

(** PING answers with an empty message, FIND_NODE echoes the key,
    ADD_PROVIDER is one-way, GET_VALUE fails on an empty key. *)
Definition handlePing : dhtHandler :=
  fun _ _ w => ((Some {| Type_ := PING; Key := [] |}, None), w).

Definition handleFindPeer : dhtHandler :=
  fun _ req w => ((Some {| Type_ := FIND_NODE; Key := Key req |}, None), w).

Definition handleAddProvider : dhtHandler :=
  fun _ _ w => ((None, None), w).

Definition handleGetValue : dhtHandler :=
  fun _ req w =>
    match Key req with
    | [] => ((None, Some (errorString "handleGetValue key was empty")), w)
    | _ => ((Some {| Type_ := GET_VALUE; Key := Key req |}, None), w)
    end.

Definition handlers (t : Z) : option dhtHandler :=
  if t =? PING then Some handlePing
  else if t =? FIND_NODE then Some handleFindPeer
  else if t =? ADD_PROVIDER then Some handleAddProvider
  else if t =? GET_VALUE then Some handleGetValue
  else None.

Definition dht : IpfsDHT := {|
  getMode := loadMode;
  onRequestHook := None;
  handlerForMsgType := handlers
|}.

Definition stream : Stream := {|
  RemotePeer := "QmRemote";
  ReadMsg := readFrame;
  WriteMsg := writeFrame;
  Close := closeStream;
  Reset := resetStream
|}.

(** A fresh stream with the given scripts. *)
Definition start (modes : list nodeMode) (frames : list (list byte * option error))
           (writeResults : list (option error)) : world :=
  {| modeScript := modes; inbox := frames; writeScript := writeResults;
     wire := []; clock := 0; closed := false; aborted := false |}.

Definition frame (t : byte) (key : list byte) : list byte * option error :=
  (t :: key, None).

Definition pingFrame : list byte * option error := frame x05 [].
Definition findNodeFrame : list byte * option error := frame x04 [x61; x62].
Definition addProviderFrame : list byte * option error := frame x02 [x61].
Definition getValueNoKeyFrame : list byte * option error := frame x01 [].
Definition unknownTypeFrame : list byte * option error := frame x09 [].
(** A payload that does not decode. *)
Definition garbledFrame : list byte * option error := frame xff [x01; x02].
(** Two payload bytes handed back together with a read error. *)
Definition truncatedFrame : list byte * option error :=
  ([x04; x61], Some (errorString "unexpected EOF")).
(** A read error without payload. *)
Definition resetFrame : list byte * option error :=
  ([], Some (errorString "stream reset")).

(** A hook that turns every request into a FIND_NODE, and a node that has
    it configured. *)
Definition retypeHook (req : msg) (w : world) : msg * world :=
  ({| Type_ := FIND_NODE; Key := Key req |}, w).

Definition dhtWithHook : IpfsDHT := {|
  getMode := loadMode;
  onRequestHook := Some retypeHook;
  handlerForMsgType := handlers
|}.

(** [io.EOF] handed back together with a buffer of two bytes. *)
Definition eofWithPayload : list byte * option error :=
  ([x04; x61], Some io_EOF).

(** A read error "stream reset" that comes with two bytes of payload. *)
Definition resetWithPayload : list byte * option error :=
  ([x04; x61], Some (errorString "stream reset")).

(** The same environment with the logger at debug level, and the node and
    the stream in it. *)
#[local] Instance verbose : Collaborators := {|
  World := world;
  mode := nodeMode;
  modeServer := Server;
  mode_eqb := nodeMode_eqb;
  mode_eqb_eq := nodeMode_eqb_eq;
  PeerID := string;
  Message := msg;
  MessageType := Z;
  GetType := Type_;
  MessageType_String := typeName;
  Unmarshal := decode;
  timeNow := tick;
  debugLevel := true
|}.

Definition dhtVerbose : @IpfsDHT verbose := {|
  getMode := loadMode;
  onRequestHook := None;
  handlerForMsgType := handlers
|}.

Definition streamVerbose : @Stream verbose := {|
  RemotePeer := "QmRemote";
  ReadMsg := readFrame;
  WriteMsg := writeFrame;
  Close := closeStream;
  Reset := resetStream
|}.

End Fixture.

(** * Properties of the session *)

Section Facts.

Context `{Collaborators}.
Variable dht : IpfsDHT.
Variable s : Stream.

(** ** The latency sample *)

(** A nanosecond is not a binary fraction of a millisecond: the sample is
    the nearest double. *)
Example latencyMillis_of_a_nanosecond :
  float64_quo (float64_of_int64 1) (float64_of_int64 Millisecond)
    = S754_finite false 4722366482869645 (-72).
Proof. vm_compute. reflexivity. Qed.

(** ** Running computations *)

Lemma pick_app {A} (f : Event -> option A) (t1 t2 : list Event) :
  pick f (t1 ++ t2) = pick f t1 ++ pick f t2.
Proof.
  induction t1 as [|e t1 IH]; simpl; [reflexivity|].
  destruct (f e); simpl; now rewrite IH.
Qed.

Lemma bind_run {A B} (m : M A) (f : A -> M B) w a t1 w1 b t2 w2 :
  m w = (a, t1, w1) -> f a w1 = (b, t2, w2) ->
  bind m f w = (b, t1 ++ t2, w2).
Proof. intros Hm Hf. unfold bind. now rewrite Hm, Hf. Qed.

Lemma call_run {A} (op : World -> A * World) ev w a w1 :
  op w = (a, w1) -> call op ev w = (a, [ev a], w1).
Proof. intros Ho. unfold call. now rewrite Ho. Qed.

Lemma quiet_run {A} (op : World -> A * World) w a w1 :
  op w = (a, w1) -> quiet op w = (a, [], w1).
Proof. intros Ho. unfold quiet. now rewrite Ho. Qed.

Lemma debugLog_run msg w : debugLog msg w = (tt, debugLine msg, w).
Proof. unfold debugLog, debugLine, when. now destruct debugLevel. Qed.


(** ** One pass, path by path *)

Ltac enter :=
  unfold iteration, bind, call, quiet, emit, ret, when, debugLog,
    Add, Record_, debugLine.

Lemma mode_eqb_refl (m : mode) : mode_eqb m m = true.
Proof. now apply mode_eqb_eq. Qed.

(** Lines 46-49. *)
Lemma pass_gate w m w1 :
  getMode dht w = (m, w1) -> m <> modeServer ->
  iteration dht s (RemotePeer s) w =
    (Return false,
     EvGetMode m
       :: debugLine "ignoring incoming dht message while not in server mode",
     w1).
Proof.
  intros Hm Hne. enter. rewrite Hm.
  destruct (mode_eqb m modeServer) eqn:E;
    [apply mode_eqb_eq in E; congruence|].
  simpl. now destruct debugLevel.
Qed.

(** Lines 52-58. *)
Lemma pass_eof w w1 b w2 :
  getMode dht w = (modeServer, w1) ->
  ReadMsg s w1 = ((b, Some io_EOF), w2) ->
  iteration dht s (RemotePeer s) w =
    (Return true,
     [EvGetMode modeServer; EvReadMsg b (Some io_EOF); EvReleaseMsg b], w2).
Proof.
  intros Hm Hr. enter. rewrite Hm. simpl. rewrite mode_eqb_refl. simpl.
  now rewrite Hr.
Qed.

(** Lines 52-72. *)
Lemma pass_read_error w w1 b e w2 :
  getMode dht w = (modeServer, w1) ->
  ReadMsg s w1 = ((b, Some e), w2) ->
  e <> io_EOF ->
  iteration dht s (RemotePeer s) w =
    (Return false,
     [EvGetMode modeServer; EvReadMsg b (Some e); EvReleaseMsg b]
       ++ readErrorLine e
       ++ (if 0 <? Z.of_nat (List.length b) then unknownTriple b else []),
     w2).
Proof.
  intros Hm Hr Hne. enter. rewrite Hm. simpl. rewrite mode_eqb_refl. simpl.
  rewrite Hr.
  destruct e as [|txt]; [congruence|]. unfold readErrorLine. simpl.
  destruct (debugLevel && negb (txt =? "stream reset")%string); simpl;
    destruct (0 <? Z.of_nat (List.length b)); reflexivity.
Qed.

(** Lines 73-85. *)
Lemma pass_decode_error w w1 b w2 e :
  getMode dht w = (modeServer, w1) ->
  ReadMsg s w1 = ((b, None), w2) ->
  Unmarshal b = inr e ->
  iteration dht s (RemotePeer s) w =
    (Return false,
     [EvGetMode modeServer; EvReadMsg b None; EvUnmarshal b false;
      EvReleaseMsg b]
       ++ debugLine "error unmarshaling message" ++ unknownTriple b,
     w2).
Proof.
  intros Hm Hr Hd. enter. rewrite Hm. simpl. rewrite mode_eqb_refl. simpl.
  rewrite Hr. simpl. rewrite Hd.
  simpl. now destruct debugLevel.
Qed.


(** The hypotheses shared by the passes in which a frame is read and
    decoded: server mode, a frame [b] without error, its decoding [req0],
    the clock reading [t0] and the request [req] the hook leaves. *)
Section Decoded.

Variables (w w1 w2 w3 w4 : World) (b : list byte) (req0 req : Message)
          (t0 : Z).
Hypothesis Hmode : getMode dht w = (modeServer, w1).
Hypothesis Hread : ReadMsg s w1 = ((b, None), w2).
Hypothesis Hdec : Unmarshal b = inl req0.
Hypothesis Hnow : timeNow w2 = (t0, w3).
Hypothesis Hhook : hooked dht req0 w3 = (req, w4).

Ltac decoded :=
  enter; rewrite Hmode; simpl; rewrite mode_eqb_refl; simpl; rewrite Hread;
  simpl; rewrite Hdec; simpl;
  rewrite Hnow; simpl; revert Hhook; unfold received, hooked, hookLine;
  destruct (onRequestHook dht) as [hook|]; intros Hhook';
  [rewrite Hhook'|injection Hhook' as <- <-]; simpl.

(** Lines 99-107. *)
Lemma pass_no_handler :
  handlerForMsgType dht (GetType req) = None ->
  iteration dht s (RemotePeer s) w =
    (Return false,
     received dht b req0
       ++ [EvHandlerForMsgType (GetType req) false;
           EvAdd ReceivedMessageErrors 1 (MessageType_String (GetType req0))]
       ++ debugLine "can't handle received message",
     w4).
Proof.
  intros Hl. decoded; rewrite Hl; simpl; now destruct debugLevel.
Qed.

(** Lines 99-124. *)
Lemma pass_handler_error h resp e w5 :
  handlerForMsgType dht (GetType req) = Some h ->
  h (RemotePeer s) req w4 = ((resp, Some e), w5) ->
  iteration dht s (RemotePeer s) w =
    (Return false,
     received dht b req0
       ++ [EvHandlerForMsgType (GetType req) true]
       ++ debugLine "handling message"
       ++ [EvHandler req resp (Some e);
           EvAdd ReceivedMessageErrors 1 (MessageType_String (GetType req0))]
       ++ debugLine "error handling message",
     w5).
Proof.
  intros Hl Hh.
  decoded; rewrite Hl; simpl; destruct debugLevel; simpl; rewrite Hh;
    reflexivity.
Qed.

(** Lines 99-135. *)
Lemma pass_one_way h w5 :
  handlerForMsgType dht (GetType req) = Some h ->
  h (RemotePeer s) req w4 = ((None, None), w5) ->
  iteration dht s (RemotePeer s) w =
    (Continue,
     received dht b req0
       ++ [EvHandlerForMsgType (GetType req) true]
       ++ debugLine "handling message"
       ++ [EvHandler req None None]
       ++ debugLine "handled message",
     handledLogged w5).
Proof.
  intros Hl Hh. unfold handledLogged.
  decoded; rewrite Hl; simpl; destruct debugLevel; simpl; rewrite Hh;
    simpl; try destruct (timeNow w5); reflexivity.
Qed.

(** Lines 99-148. *)
Lemma pass_write_error h resp w5 e w6 :
  handlerForMsgType dht (GetType req) = Some h ->
  h (RemotePeer s) req w4 = ((Some resp, None), w5) ->
  WriteMsg s resp (handledLogged w5) = (Some e, w6) ->
  iteration dht s (RemotePeer s) w =
    (Return false,
     received dht b req0
       ++ [EvHandlerForMsgType (GetType req) true]
       ++ debugLine "handling message"
       ++ [EvHandler req (Some resp) None]
       ++ debugLine "handled message"
       ++ [EvWriteMsg resp (Some e);
           EvAdd ReceivedMessageErrors 1 (MessageType_String (GetType req0))]
       ++ debugLine "error writing response",
     w6).
Proof.
  intros Hl Hh. unfold handledLogged.
  decoded; rewrite Hl; simpl; destruct debugLevel; simpl; rewrite Hh;
    simpl; try destruct (timeNow w5); simpl; intros Hw; rewrite Hw;
    reflexivity.
Qed.

(** Lines 99-160. *)
Lemma pass_responded h resp w5 w6 t1 w7 :
  handlerForMsgType dht (GetType req) = Some h ->
  h (RemotePeer s) req w4 = ((Some resp, None), w5) ->
  WriteMsg s resp (handledLogged w5) = (None, w6) ->
  timeNow w6 = (t1, w7) ->
  iteration dht s (RemotePeer s) w =
    (Continue,
     received dht b req0
       ++ [EvHandlerForMsgType (GetType req) true]
       ++ debugLine "handling message"
       ++ [EvHandler req (Some resp) None]
       ++ debugLine "handled message"
       ++ [EvWriteMsg resp None]
       ++ debugLine "responded to message"
       ++ [EvRecord InboundRequestLatency
                    (float64_quo (float64_of_int64 (t1 - t0))
                                 (float64_of_int64 Millisecond))
                    (MessageType_String (GetType req0))],
     w7).
Proof.
  intros Hl Hh. unfold handledLogged.
  decoded; rewrite Hl; simpl; destruct debugLevel; simpl; rewrite Hh;
    simpl; try destruct (timeNow w5); simpl; intros Hw Hn; rewrite Hw;
    simpl; rewrite Hn; reflexivity.
Qed.

End Decoded.


(** Every pass takes one of the paths. *)
Lemma pass_total w : Pass dht s w (iteration dht s (RemotePeer s) w).
Proof.
  destruct (getMode dht w) as [m w1] eqn:Hm.
  destruct (mode_eqb m modeServer) eqn:E.
  2:{ assert (Hne : m <> modeServer).
      { intros ->. rewrite mode_eqb_refl in E. discriminate. }
      rewrite (pass_gate _ Hm Hne). now apply PassGate. }
  apply mode_eqb_eq in E. subst m.
  destruct (ReadMsg s w1) as [[b [e|]] w2] eqn:Hr.
  { destruct e as [|txt].
    - rewrite (pass_eof _ Hm Hr). now apply PassEOF with (w1 := w1).
    - rewrite (pass_read_error _ Hm Hr) by discriminate.
      apply PassReadError with (w1 := w1); [assumption..|discriminate]. }
  destruct (Unmarshal b) as [req0|e] eqn:Hd.
  2:{ rewrite (pass_decode_error _ Hm Hr Hd).
      now apply PassDecodeError with (w1 := w1) (e := e). }
  destruct (timeNow w2) as [t0 w3] eqn:Hn.
  destruct (hooked dht req0 w3) as [req w4] eqn:Hh.
  destruct (handlerForMsgType dht (GetType req)) as [h|] eqn:Hl.
  2:{ rewrite (pass_no_handler _ Hm Hr Hd Hn Hh Hl).
      eapply PassDecoded; eauto. now apply DispatchNoHandler. }
  destruct (h (RemotePeer s) req w4) as [[resp [e|]] w5] eqn:Hc.
  { rewrite (pass_handler_error _ Hm Hr Hd Hn Hh Hl Hc).
    eapply PassDecoded; eauto. eapply DispatchHandlerError; eauto. }
  destruct resp as [resp|].
  2:{ rewrite (pass_one_way _ Hm Hr Hd Hn Hh Hl Hc).
      eapply PassDecoded; eauto. eapply DispatchOneWay; eauto. }
  destruct (WriteMsg s resp (handledLogged w5)) as [[e|] w6] eqn:Hw.
  { rewrite (pass_write_error _ Hm Hr Hd Hn Hh Hl Hc Hw).
    eapply PassDecoded; eauto. eapply DispatchWriteError; eauto. }
  destruct (timeNow w6) as [t1 w7] eqn:Hn'.
  rewrite (pass_responded _ Hm Hr Hd Hn Hh Hl Hc Hw Hn').
  eapply PassDecoded; eauto. eapply DispatchResponded; eauto.
Qed.

(** And the path determines the pass: the relation and the function agree. *)
Lemma pass_sound w r : Pass dht s w r -> iteration dht s (RemotePeer s) w = r.
Proof.
  intros HP.
  inversion HP as [ | | | | ? ? ? ? ? ? ? ? ? ? ? Hm Hr Hd Hn Hh HD ]; subst;
    [ eapply pass_gate; eassumption | eapply pass_eof; eassumption
    | eapply pass_read_error; eassumption
    | eapply pass_decode_error; eassumption | ].
  inversion HD; subst.
  - eapply pass_no_handler; eassumption.
  - eapply pass_handler_error; eassumption.
  - eapply pass_one_way; eassumption.
  - eapply pass_write_error; eassumption.
  - eapply pass_responded; eassumption.
Qed.

(** ** The loop *)

Lemma loop_continues k : forall w0 t w,
  continues k dht s w0 = Some (t, w) ->
  forall n,
    loop (k + n) dht s (RemotePeer s) w0 =
      (let '(r, t', w') := loop n dht s (RemotePeer s) w in (r, t ++ t', w')).
Proof.
  induction k as [|k IH]; intros w0 t w Hc n; simpl in Hc.
  - injection Hc as <- <-. simpl.
    now destruct (loop n dht s (RemotePeer s) w0) as [[? ?] ?].
  - destruct (iteration dht s (RemotePeer s) w0) as [[[|b] t1] w1] eqn:Hi;
      [|discriminate].
    destruct (continues k dht s w1) as [[t2 w2]|] eqn:Hk; [|discriminate].
    injection Hc as <- <-.
    simpl. unfold bind at 1. rewrite Hi. rewrite (IH _ _ _ Hk n).
    destruct (loop n dht s (RemotePeer s) w2) as [[r t'] w'].
    now rewrite app_assoc.
Qed.

Lemma continues_snoc k w0 t w tl w' :
  continues k dht s w0 = Some (t, w) ->
  iteration dht s (RemotePeer s) w = (Continue, tl, w') ->
  continues (S k) dht s w0 = Some (t ++ tl, w').
Proof.
  revert w0 t. induction k as [|k IH]; intros w0 t Hc Hi; simpl in Hc.
  - injection Hc as <- <-. simpl. rewrite Hi. now rewrite app_nil_r.
  - destruct (iteration dht s (RemotePeer s) w0) as [[[|b] t1] w1] eqn:Hi0;
      [|discriminate].
    destruct (continues k dht s w1) as [[t2 w2]|] eqn:Hk; [|discriminate].
    injection Hc as <- <-.
    change (continues (S (S k)) dht s w0) with
      (match iteration dht s (RemotePeer s) w0 with
       | (Continue, t1, w1) =>
           match continues (S k) dht s w1 with
           | Some (t2, w2) => Some (t1 ++ t2, w2)
           | None => None
           end
       | (Return _, _, _) => None
       end).
    rewrite Hi0, (IH _ _ Hk Hi). now rewrite app_assoc.
Qed.

(** A session whose pass number [k] returns [b] returns [b] with any fuel
    above [k]. *)
Lemma session_final k w0 t w b tl w' fuel :
  continues k dht s w0 = Some (t, w) ->
  iteration dht s (RemotePeer s) w = (Return b, tl, w') ->
  (k < fuel)%nat ->
  handleNewMessage fuel dht s w0 =
    (Some b, EvAfterFunc dhtStreamIdleTimeout :: t ++ tl ++ [EvTimerStop], w').
Proof.
  intros Hc Hi Hlt.
  replace fuel with (k + S (fuel - S k))%nat by lia.
  unfold handleNewMessage, bind at 1, emit.
  unfold bind at 1. rewrite (loop_continues _ _ Hc).
  simpl loop. unfold bind at 1. rewrite Hi. unfold ret at 1.
  unfold bind, emit, ret. simpl. now rewrite app_nil_r, <- app_assoc.
Qed.

(** A session whose first [fuel] passes all go round again is still
    running. *)
Lemma session_running fuel w0 t w :
  continues fuel dht s w0 = Some (t, w) ->
  handleNewMessage fuel dht s w0 =
    (None, EvAfterFunc dhtStreamIdleTimeout :: t, w).
Proof.
  intros Hc.
  replace fuel with (fuel + 0)%nat at 1 by lia.
  unfold handleNewMessage, bind at 1, emit.
  unfold bind at 1. rewrite (loop_continues _ _ Hc).
  simpl. unfold ret. now rewrite !app_nil_r.
Qed.

(** Either some pass within the fuel returns, or all of them go round. *)
Lemma session_cases fuel : forall w0,
  (exists k t w b tl w',
      (k < fuel)%nat /\
      continues k dht s w0 = Some (t, w) /\
      iteration dht s (RemotePeer s) w = (Return b, tl, w'))
  \/ (exists t w, continues fuel dht s w0 = Some (t, w)).
Proof.
  induction fuel as [|fuel IH]; intros w0.
  - right. now exists [], w0.
  - destruct (iteration dht s (RemotePeer s) w0) as [[[|b] t1] w1] eqn:Hi.
    + destruct (IH w1) as [(k & t & w & b & tl & w' & Hlt & Hc & Hr)|(t & w & Hc)].
      * left. exists (S k), (t1 ++ t), w, b, tl, w'.
        split; [lia|]. split; [|assumption]. simpl. now rewrite Hi, Hc.
      * right. exists (t1 ++ t), w. simpl. now rewrite Hi, Hc.
    + left. exists 0%nat, [], w0, b, t1, w1.
      split; [lia|]. split; [reflexivity|assumption].
Qed.


(** Once the session has returned, more fuel changes nothing. *)
Lemma session_fuel_irrelevant fuel fuel' w0 b tr w' :
  handleNewMessage fuel dht s w0 = (Some b, tr, w') ->
  (fuel <= fuel')%nat ->
  handleNewMessage fuel' dht s w0 = (Some b, tr, w').
Proof.
  intros Hs Hle.
  destruct (session_cases fuel w0)
    as [(k & t & w & b0 & tl & w1 & Hlt & Hc & Hr)|(t & w & Hc)].
  - rewrite (session_final _ Hc Hr Hlt) in Hs. rewrite <- Hs.
    apply (session_final _ Hc Hr). lia.
  - rewrite (session_running _ _ Hc) in Hs. discriminate.
Qed.

(** With fuel above [k], the session runs pass number [k] in full. *)
Lemma session_reaches k w0 t w fuel :
  continues k dht s w0 = Some (t, w) ->
  (k < fuel)%nat ->
  exists r rest w'',
    handleNewMessage fuel dht s w0 =
      (r,
       EvAfterFunc dhtStreamIdleTimeout
         :: t ++ snd (fst (iteration dht s (RemotePeer s) w)) ++ rest,
       w'').
Proof.
  intros Hc Hlt.
  destruct (iteration dht s (RemotePeer s) w) as [[[|b] tl] w'] eqn:Hi.
  - pose proof (continues_snoc _ _ Hc Hi) as Hc'.
    replace fuel with (S k + (fuel - S k))%nat by lia.
    unfold handleNewMessage, bind at 1, emit.
    unfold bind at 1. rewrite (loop_continues _ _ Hc').
    destruct (loop (fuel - S k) dht s (RemotePeer s) w') as [[[b|] t'] w''];
      unfold bind, emit, ret; simpl.
    + exists (Some b), (t' ++ [EvTimerStop]), w''.
      now rewrite ?app_nil_r, <- !app_assoc.
    + exists None, t', w''. now rewrite ?app_nil_r, <- !app_assoc.
  - exists (Some b), [EvTimerStop], w'. exact (session_final _ Hc Hi Hlt).
Qed.

(** ** Reading the log of a pass *)

(** Brings the log of a path to a list of entries: the optional lines are
    split into present and absent. *)
Ltac spell :=
  unfold received, hookLine, debugLine, readErrorLine, unknownTriple;
  repeat match goal with
    | |- context [onRequestHook dht] => destruct (onRequestHook dht)
    | |- context [if ?c then _ else _] => destruct c
    end;
  simpl.

Ltac by_path HP :=
  inversion HP as [ | | | | ? ? ? ? ? ? ? ? ? ? ? ? ? ? ? ? HD ]; subst;
  [ | | | | inversion HD; subst ].

(** What the passes that go round again never log is absent from the
    log of any number of them. *)
Lemma continues_pick_nil {A} (f : Event -> option A) :
  (forall w t w', iteration dht s (RemotePeer s) w = (Continue, t, w') ->
                  pick f t = []) ->
  forall k w0 t w, continues k dht s w0 = Some (t, w) -> pick f t = [].
Proof.
  intros Hf. induction k as [|k IH]; intros w0 t w Hc; simpl in Hc.
  - now injection Hc as <- <-.
  - destruct (iteration dht s (RemotePeer s) w0) as [[[|b] t1] w1] eqn:Hi;
      [|discriminate].
    destruct (continues k dht s w1) as [[t2 w2]|] eqn:Hk; [|discriminate].
    injection Hc as <- <-.
    now rewrite pick_app, (Hf _ _ _ Hi), (IH _ _ _ Hk).
Qed.



Lemma handleNewStream_unfold fuel w0 :
  handleNewStream fuel dht s w0 =
    (let '(r, tr, w1) := handleNewMessage fuel dht s w0 in
     match r with
     | Some true => (Some tt, tr ++ [EvClose], snd (Close s w1))
     | Some false => (Some tt, tr ++ [EvReset], snd (Reset s w1))
     | None => (None, tr, w1)
     end).
Proof.
  unfold handleNewStream, bind at 1.
  destruct (handleNewMessage fuel dht s w0) as [[[[|]|] tr] w1];
    unfold bind, call, ret.
  - destruct (Close s w1). simpl. now rewrite ?app_nil_r.
  - destruct (Reset s w1). simpl. now rewrite ?app_nil_r.
  - now rewrite ?app_nil_r.
Qed.

(** ** What the specification says of the session *)



(** C2.  Every pass starts by reading the mode flag, before anything is
    asked of the reader; and when a pass finds the node out of server
    mode, the session returns [false] there: that pass reads no frame,
    decodes, dispatches and writes nothing, and leaves the world as the
    mode check left it, so a frame waiting in the transport stays
    unread. *)
Theorem mode_gate_before_read :
  (forall w, exists rest,
      snd (fst (iteration dht s (RemotePeer s) w))
        = EvGetMode (fst (getMode dht w)) :: rest /\
      (fst (getMode dht w) <> modeServer -> reads rest = [])) /\
  (forall k w0 t w m w1 fuel,
      continues k dht s w0 = Some (t, w) ->
      getMode dht w = (m, w1) ->
      m <> modeServer ->
      (k < fuel)%nat ->
      let tl :=
        EvGetMode m
          :: debugLine "ignoring incoming dht message while not in server mode" in
      handleNewMessage fuel dht s w0 =
        (Some false,
         EvAfterFunc dhtStreamIdleTimeout :: t ++ tl ++ [EvTimerStop], w1) /\
      reads tl = [] /\ decodes tl = [] /\ handlerCalls tl = [] /\
      writes tl = []).
Proof.
  split.
  - intros w. pose proof (pass_total w) as HP.
    destruct (iteration dht s (RemotePeer s) w) as [[o tl] w'].
    by_path HP;
      match goal with Hm : getMode dht w = _ |- _ => rewrite Hm end; simpl;
      eexists; (split; [reflexivity|]); intros Hne; try congruence.
    unfold reads, debugLine. now destruct debugLevel.
  - intros k w0 t w m w1 fuel Hc Hm Hne Hlt tl.
    split; [exact (session_final _ Hc (pass_gate _ Hm Hne) Hlt)|].
    subst tl. unfold reads, decodes, handlerCalls, writes, debugLine.
    destruct debugLevel; simpl; auto.
Qed.

(** C3.  When the reader reports [io.EOF] with an empty payload, the
    session returns [true], and that pass logs the mode check, the read
    and the release of the buffer only: no counter is incremented and no
    sample recorded. *)
Theorem clean_eof_closes_orderly k w0 t w w1 b w2 fuel :
  continues k dht s w0 = Some (t, w) ->
  getMode dht w = (modeServer, w1) ->
  ReadMsg s w1 = ((b, Some io_EOF), w2) ->
  List.length b = 0%nat ->
  (k < fuel)%nat ->
  let tl := [EvGetMode modeServer; EvReadMsg b (Some io_EOF); EvReleaseMsg b] in
  handleNewMessage fuel dht s w0 =
    (Some true,
     EvAfterFunc dhtStreamIdleTimeout :: t ++ tl ++ [EvTimerStop], w2) /\
  adds tl = [] /\ records tl = [].
Proof.
  intros Hc Hm Hr _ Hlt tl.
  split; [exact (session_final _ Hc (pass_eof _ Hm Hr) Hlt)|].
  now split.
Qed.

(** C4.  When the reader reports an error other than [io.EOF], the session
    returns [false]; if the payload it handed back is not empty, the pass
    first increments ReceivedMessages by one, ReceivedMessageErrors by one
    and ReceivedBytes by the payload length, in this order and each once,
    all with message type "UNKNOWN"; if it is empty, no counter is
    touched. *)
Theorem read_error_aborts k w0 t w w1 b e w2 fuel :
  continues k dht s w0 = Some (t, w) ->
  getMode dht w = (modeServer, w1) ->
  ReadMsg s w1 = ((b, Some e), w2) ->
  e <> io_EOF ->
  (k < fuel)%nat ->
  let tl :=
    [EvGetMode modeServer; EvReadMsg b (Some e); EvReleaseMsg b]
      ++ readErrorLine e
      ++ (if 0 <? Z.of_nat (List.length b) then unknownTriple b else []) in
  handleNewMessage fuel dht s w0 =
    (Some false,
     EvAfterFunc dhtStreamIdleTimeout :: t ++ tl ++ [EvTimerStop], w2) /\
  ((0 < List.length b)%nat ->
   adds tl = [(ReceivedMessages, 1, "UNKNOWN");
              (ReceivedMessageErrors, 1, "UNKNOWN");
              (ReceivedBytes, Z.of_nat (List.length b), "UNKNOWN")]) /\
  (List.length b = 0%nat -> adds tl = []).
Proof.
  intros Hc Hm Hr Hne Hlt tl.
  split; [exact (session_final _ Hc (pass_read_error _ Hm Hr Hne) Hlt)|].
  subst tl. unfold adds, readErrorLine, unknownTriple.
  destruct (0 <? Z.of_nat (List.length b)) eqn:Hpos;
    [apply Z.ltb_lt in Hpos|apply Z.ltb_ge in Hpos];
    (split; intros Hlen; [|try lia]); try lia;
    destruct (debugLevel && negb (Error e =? "stream reset")%string);
    reflexivity.
Qed.

(** C5.  When a frame is read without error and its payload does not
    decode, the pass increments ReceivedMessages by one,
    ReceivedMessageErrors by one and ReceivedBytes by the frame length,
    all with message type "UNKNOWN", and the session returns [false]: the
    frame was read once and decoded once, and nothing is read after it. *)
Theorem decode_error_aborts k w0 t w w1 b w2 e fuel :
  continues k dht s w0 = Some (t, w) ->
  getMode dht w = (modeServer, w1) ->
  ReadMsg s w1 = ((b, None), w2) ->
  Unmarshal b = inr e ->
  (k < fuel)%nat ->
  let tl :=
    [EvGetMode modeServer; EvReadMsg b None; EvUnmarshal b false;
     EvReleaseMsg b]
      ++ debugLine "error unmarshaling message" ++ unknownTriple b in
  handleNewMessage fuel dht s w0 =
    (Some false,
     EvAfterFunc dhtStreamIdleTimeout :: t ++ tl ++ [EvTimerStop], w2) /\
  adds tl = [(ReceivedMessages, 1, "UNKNOWN");
             (ReceivedMessageErrors, 1, "UNKNOWN");
             (ReceivedBytes, Z.of_nat (List.length b), "UNKNOWN")] /\
  reads tl = [(b, None)] /\ decodes tl = [b] /\
  handlerCalls tl = [] /\ writes tl = [].
Proof.
  intros Hc Hm Hr Hd Hlt tl.
  split; [exact (session_final _ Hc (pass_decode_error _ Hm Hr Hd) Hlt)|].
  subst tl. unfold adds, reads, decodes, handlerCalls, writes, debugLine,
    unknownTriple.
  destruct debugLevel; simpl; auto.
Qed.


(** C6.  A pass rearms the watchdog, with [dhtStreamIdleTimeout], exactly
    when it read a frame without error in server mode and the payload
    decoded; it then does so once, right after the decode and the release
    of the buffer and before the lookup, the handler and the write,
    whatever becomes of those.  In a session, any pass that is reached
    and decodes a frame logs the rearm in that place. *)
Theorem watchdog_rearmed_on_decode :
  (forall w,
      let tl := snd (fst (iteration dht s (RemotePeer s) w)) in
      (rearms tl = [dhtStreamIdleTimeout] \/ rearms tl = []) /\
      (rearms tl = [dhtStreamIdleTimeout] <->
       exists w1 b w2 req0,
         getMode dht w = (modeServer, w1) /\
         ReadMsg s w1 = ((b, None), w2) /\
         Unmarshal b = inl req0)) /\
  (forall k w0 t w w1 b w2 req0 fuel,
      continues k dht s w0 = Some (t, w) ->
      getMode dht w = (modeServer, w1) ->
      ReadMsg s w1 = ((b, None), w2) ->
      Unmarshal b = inl req0 ->
      (k < fuel)%nat ->
      exists post r rest w'',
        snd (fst (iteration dht s (RemotePeer s) w)) =
          [EvGetMode modeServer; EvReadMsg b None; EvUnmarshal b true;
           EvReleaseMsg b; EvTimerReset dhtStreamIdleTimeout] ++ post /\
        rearms post = [] /\
        handleNewMessage fuel dht s w0 =
          (r,
           EvAfterFunc dhtStreamIdleTimeout
             :: t ++ ([EvGetMode modeServer; EvReadMsg b None;
                       EvUnmarshal b true; EvReleaseMsg b;
                       EvTimerReset dhtStreamIdleTimeout] ++ post) ++ rest,
           w'')).
Proof.
  assert (Hpass : forall w w1 b w2 req0,
    getMode dht w = (modeServer, w1) ->
    ReadMsg s w1 = ((b, None), w2) ->
    Unmarshal b = inl req0 ->
    exists post,
      snd (fst (iteration dht s (RemotePeer s) w)) =
        [EvGetMode modeServer; EvReadMsg b None; EvUnmarshal b true;
         EvReleaseMsg b; EvTimerReset dhtStreamIdleTimeout] ++ post /\
      rearms post = []).
  { intros w w1 b w2 req0 Hm Hr Hd. pose proof (pass_total w) as HP.
    destruct (iteration dht s (RemotePeer s) w) as [[o tl] w'].
    by_path HP; try congruence;
      repeat match goal with
        | H1 : ?x = _, H2 : ?x = _ |- _ => rewrite H1 in H2; inversion H2; subst; clear H2
        end;
      simpl; eexists; (split; [reflexivity|]);
      unfold rearms; spell; reflexivity. }
  split.
  - intros w tl. subst tl. pose proof (pass_total w) as HP.
    destruct (iteration dht s (RemotePeer s) w) as [[o tl] w'] eqn:Hi.
    simpl.
    by_path HP.
    1-4: split;
      [right; unfold rearms; spell; reflexivity
      |split;
       [unfold rearms; spell; discriminate
       |intros (w1' & b' & w2' & req0' & Hm & Hr & Hd); congruence]].
    all: split;
      [left; unfold rearms; spell; reflexivity
      |split; [intros _; eauto 10|intros _; unfold rearms; spell; reflexivity]].
  - intros k w0 t w w1 b w2 req0 fuel Hc Hm Hr Hd Hlt.
    destruct (Hpass _ _ _ _ _ Hm Hr Hd) as (post & Hlog & Hpost).
    destruct (session_reaches _ Hc Hlt) as (r & rest & w'' & Hs).
    exists post, r, rest, w''. rewrite <- Hlog. auto.
Qed.


Ltac same :=
  repeat match goal with
    | H1 : ?x = _, H2 : ?x = _ |- _ =>
        rewrite H1 in H2; inversion H2; subst; clear H2
    end.

(** C7.  A pass that decodes a frame increments ReceivedMessages by one
    and ReceivedBytes by the frame length, each once and with the decoded
    message's type, before the hook and the handler lookup, whatever the
    outcome of the pass; the session logs this for every such pass it
    reaches.  When the handler answers and the answer is written, the pass
    goes round again: the next pass of the loop starts from the world the
    write left. *)
Theorem receipt_counted_before_dispatch k w0 t w w1 b w2 req0 fuel :
  continues k dht s w0 = Some (t, w) ->
  getMode dht w = (modeServer, w1) ->
  ReadMsg s w1 = ((b, None), w2) ->
  Unmarshal b = inl req0 ->
  (k < fuel)%nat ->
  let ty := MessageType_String (GetType req0) in
  exists o post w',
    iteration dht s (RemotePeer s) w = (o, received dht b req0 ++ post, w') /\
    (exists ty' found post', post = EvHandlerForMsgType ty' found :: post') /\
    addsOf ReceivedMessages (received dht b req0) = [(1, ty)] /\
    addsOf ReceivedBytes (received dht b req0)
      = [(Z.of_nat (List.length b), ty)] /\
    addsOf ReceivedMessages post = [] /\
    addsOf ReceivedBytes post = [] /\
    (exists r rest w'',
        handleNewMessage fuel dht s w0 =
          (r,
           EvAfterFunc dhtStreamIdleTimeout
             :: t ++ (received dht b req0 ++ post) ++ rest,
           w'')) /\
    (forall t0 w3 req w4 h resp w5 w6 t1 w7,
        timeNow w2 = (t0, w3) ->
        hooked dht req0 w3 = (req, w4) ->
        handlerForMsgType dht (GetType req) = Some h ->
        h (RemotePeer s) req w4 = ((Some resp, None), w5) ->
        WriteMsg s resp (handledLogged w5) = (None, w6) ->
        timeNow w6 = (t1, w7) ->
        o = Continue /\ w' = w7 /\
        continues (S k) dht s w0
          = Some (t ++ received dht b req0 ++ post, w7)).
Proof.
  intros Hc Hm Hr Hd Hlt ty.
  destruct (session_reaches _ Hc Hlt) as (r & rest & w'' & Hs).
  pose proof (pass_total w) as HP.
  destruct (iteration dht s (RemotePeer s) w) as [[o tl] w'] eqn:Hi.
  simpl in Hs.
  by_path HP; try congruence; same;
    (eexists _, _, _; split; [reflexivity|]);
    (split; [simpl; eauto|]);
    (split; [unfold addsOf; spell; reflexivity|]);
    (split; [unfold addsOf; spell; reflexivity|]);
    (split; [unfold addsOf; spell; reflexivity|]);
    (split; [unfold addsOf; spell; reflexivity|]);
    (split; [eauto|]);
    intros t0' w3' req' w4' h' resp' w5' w6' t1' w7' Hn' Hh' Hl' Hc' Hw' Hn2';
    same; try congruence.
  repeat split; try reflexivity.
  exact (continues_snoc _ _ Hc Hi).
Qed.

(** C8.  When the decoded request has no handler, or its handler returns
    an error, or the write of the response fails, the pass increments
    ReceivedMessageErrors once, by one and with the decoded message's
    type, and the session returns [false].  In that pass the frame was
    read once, the handler ran at most once, at most one write was
    attempted, and no response was accepted by the writer. *)
Theorem dispatch_failure_aborts k w0 t w w1 b w2 req0 t0 w3 req w4 fuel :
  continues k dht s w0 = Some (t, w) ->
  getMode dht w = (modeServer, w1) ->
  ReadMsg s w1 = ((b, None), w2) ->
  Unmarshal b = inl req0 ->
  timeNow w2 = (t0, w3) ->
  hooked dht req0 w3 = (req, w4) ->
  (handlerForMsgType dht (GetType req) = None
   \/ (exists h resp e w5,
          handlerForMsgType dht (GetType req) = Some h /\
          h (RemotePeer s) req w4 = ((resp, Some e), w5))
   \/ (exists h resp w5 e w6,
          handlerForMsgType dht (GetType req) = Some h /\
          h (RemotePeer s) req w4 = ((Some resp, None), w5) /\
          WriteMsg s resp (handledLogged w5) = (Some e, w6))) ->
  (k < fuel)%nat ->
  exists tl w',
    iteration dht s (RemotePeer s) w = (Return false, tl, w') /\
    handleNewMessage fuel dht s w0 =
      (Some false,
       EvAfterFunc dhtStreamIdleTimeout :: t ++ tl ++ [EvTimerStop], w') /\
    addsOf ReceivedMessageErrors tl
      = [(1, MessageType_String (GetType req0))] /\
    delivered tl = [] /\
    reads tl = [(b, None)] /\
    (handlerForMsgType dht (GetType req) = None ->
     handlerCalls tl = [] /\ writes tl = []) /\
    (forall h, handlerForMsgType dht (GetType req) = Some h ->
               handlerCalls tl = [req]) /\
    (List.length (writes tl) <= 1)%nat /\
    (forall h resp e w5,
        handlerForMsgType dht (GetType req) = Some h ->
        h (RemotePeer s) req w4 = ((resp, Some e), w5) ->
        writes tl = []).
Proof.
  intros Hc Hm Hr Hd Hn Hh Hfail Hlt.
  destruct Hfail as [Hl|[(h & resp & e & w5 & Hl & Hcall)
                        |(h & resp & w5 & e & w6 & Hl & Hcall & Hw)]].
  - eexists _, _.
    split; [exact (pass_no_handler _ Hm Hr Hd Hn Hh Hl)|].
    split; [exact (session_final _ Hc (pass_no_handler _ Hm Hr Hd Hn Hh Hl) Hlt)|].
    unfold addsOf, delivered, reads, handlerCalls, writes.
    repeat split; try (intros; congruence); spell; auto.
  - eexists _, _.
    split; [exact (pass_handler_error _ Hm Hr Hd Hn Hh Hl Hcall)|].
    split; [exact (session_final _ Hc
                     (pass_handler_error _ Hm Hr Hd Hn Hh Hl Hcall) Hlt)|].
    unfold addsOf, delivered, reads, handlerCalls, writes.
    repeat split; try (intros; congruence); spell; auto.
  - eexists _, _.
    split; [exact (pass_write_error _ Hm Hr Hd Hn Hh Hl Hcall Hw)|].
    split; [exact (session_final _ Hc
                     (pass_write_error _ Hm Hr Hd Hn Hh Hl Hcall Hw) Hlt)|].
    unfold addsOf, delivered, reads, handlerCalls, writes.
    repeat split; try (intros; congruence); spell; auto.
Qed.


(** What a pass logs first: the mode check, and in server mode the read of
    the next frame right after it. *)
Lemma pass_opens w :
  exists rest,
    snd (fst (iteration dht s (RemotePeer s) w))
      = EvGetMode (fst (getMode dht w)) :: rest /\
    (fst (getMode dht w) = modeServer ->
     exists rest',
       rest = EvReadMsg (fst (fst (ReadMsg s (snd (getMode dht w)))))
                        (snd (fst (ReadMsg s (snd (getMode dht w)))))
                :: rest').
Proof.
  pose proof (pass_total w) as HP.
  destruct (iteration dht s (RemotePeer s) w) as [[o tl] w']. cbn [fst snd].
  by_path HP;
    match goal with Hm : getMode dht w = _ |- _ => rewrite Hm end;
    cbn [fst snd];
    try match goal with Hr : ReadMsg s _ = _ |- _ => rewrite Hr end;
    cbn [fst snd];
    (eexists; split; [reflexivity|]); intros Hsrv; try contradiction;
    eexists; reflexivity.
Qed.

(** After a pass that goes round again, the session is either out of fuel
    right there, or its next call is the mode check of the next pass,
    followed in server mode by the read of the next frame. *)
Lemma session_goes_round k w0 t w tl w' fuel :
  continues k dht s w0 = Some (t, w) ->
  iteration dht s (RemotePeer s) w = (Continue, tl, w') ->
  (k < fuel)%nat ->
  (fuel = S k ->
   handleNewMessage fuel dht s w0 =
     (None, EvAfterFunc dhtStreamIdleTimeout :: t ++ tl, w')) /\
  ((S k < fuel)%nat ->
   exists r next rest w'',
     handleNewMessage fuel dht s w0 =
       (r,
        EvAfterFunc dhtStreamIdleTimeout
          :: t ++ tl ++ (EvGetMode (fst (getMode dht w')) :: next) ++ rest,
        w'') /\
     snd (fst (iteration dht s (RemotePeer s) w'))
       = EvGetMode (fst (getMode dht w')) :: next /\
     (fst (getMode dht w') = modeServer ->
      exists next',
        next = EvReadMsg (fst (fst (ReadMsg s (snd (getMode dht w')))))
                         (snd (fst (ReadMsg s (snd (getMode dht w')))))
                 :: next')).
Proof.
  intros Hc Hi Hlt. pose proof (continues_snoc _ _ Hc Hi) as Hc'.
  split.
  - intros ->. exact (session_running _ _ Hc').
  - intros Hlt'.
    destruct (session_reaches _ Hc' Hlt') as (r & rest & w'' & Hs).
    destruct (pass_opens w') as (next & Hnext & Hread).
    exists r, next, rest, w''.
    split; [|split; [exact Hnext|exact Hread]].
    rewrite Hs, Hnext. now rewrite <- !app_assoc.
Qed.

(** C9.  After a handler call that returned no error, the pass skips the
    write exactly when the handler returned no response, and then goes
    round again at once; a response that is present is handed to the
    writer, once, whatever it contains, and when the writer accepts it the
    pass records one InboundRequestLatency sample, the [float64] quotient
    of the nanoseconds between the clock reading of line 89 and the one
    taken after the write by [time.Millisecond], with the decoded message's
    type, as its last entry before going round again.  Going round again is
    stated of the session: [handleNewMessage] has not returned after this
    pass, and with fuel left its next call is the mode check of the next
    pass, followed in server mode by the read of the next frame; when the
    write fails, it returns [false] instead. *)
Theorem response_written_unless_nil
        k w0 t w w1 b w2 req0 t0 w3 req w4 h resp w5 fuel :
  continues k dht s w0 = Some (t, w) ->
  getMode dht w = (modeServer, w1) ->
  ReadMsg s w1 = ((b, None), w2) ->
  Unmarshal b = inl req0 ->
  timeNow w2 = (t0, w3) ->
  hooked dht req0 w3 = (req, w4) ->
  handlerForMsgType dht (GetType req) = Some h ->
  h (RemotePeer s) req w4 = ((resp, None), w5) ->
  (k < fuel)%nat ->
  let ty := MessageType_String (GetType req0) in
  exists o tl w',
    iteration dht s (RemotePeer s) w = (o, tl, w') /\
    (writes tl = [] <-> resp = None) /\
    (resp = None ->
     o = Continue /\ w' = handledLogged w5 /\ records tl = [] /\
     continues (S k) dht s w0 = Some (t ++ tl, w')) /\
    (forall r, resp = Some r ->
       exists we w6,
         WriteMsg s r (handledLogged w5) = (we, w6) /\
         writes tl = [(r, we)] /\
         (we <> None -> o = Return false /\ records tl = []) /\
         (we = None ->
          forall t1 w7, timeNow w6 = (t1, w7) ->
            o = Continue /\ w' = w7 /\
            records tl
              = [(InboundRequestLatency,
                  float64_quo (float64_of_int64 (t1 - t0))
                              (float64_of_int64 Millisecond),
                  ty)] /\
            (exists pre,
                tl = pre ++ [EvRecord InboundRequestLatency
                                      (float64_quo
                                         (float64_of_int64 (t1 - t0))
                                         (float64_of_int64 Millisecond))
                                      ty]) /\
            continues (S k) dht s w0 = Some (t ++ tl, w7))) /\
    (o = Return false ->
     handleNewMessage fuel dht s w0 =
       (Some false,
        EvAfterFunc dhtStreamIdleTimeout :: t ++ tl ++ [EvTimerStop], w')) /\
    (o = Continue ->
     (fuel = S k ->
      handleNewMessage fuel dht s w0 =
        (None, EvAfterFunc dhtStreamIdleTimeout :: t ++ tl, w')) /\
     ((S k < fuel)%nat ->
      exists r next rest w'',
        handleNewMessage fuel dht s w0 =
          (r,
           EvAfterFunc dhtStreamIdleTimeout
             :: t ++ tl ++ (EvGetMode (fst (getMode dht w')) :: next) ++ rest,
           w'') /\
        snd (fst (iteration dht s (RemotePeer s) w'))
          = EvGetMode (fst (getMode dht w')) :: next /\
        (fst (getMode dht w') = modeServer ->
         exists next',
           next = EvReadMsg (fst (fst (ReadMsg s (snd (getMode dht w')))))
                            (snd (fst (ReadMsg s (snd (getMode dht w')))))
                    :: next'))).
Proof.
  intros Hc Hm Hr Hd Hn Hh Hl Hcall Hlt ty.
  destruct resp as [r|].
  - destruct (WriteMsg s r (handledLogged w5)) as [[e|] w6] eqn:Hw.
    + pose proof (pass_write_error _ Hm Hr Hd Hn Hh Hl Hcall Hw) as Hi.
      eexists _, _, _. split; [exact Hi|].
      split; [split; [unfold writes; spell; discriminate|discriminate]|].
      split; [discriminate|].
      split; [|split; [intros _; exact (session_final _ Hc Hi Hlt)
                      |discriminate]].
      intros r' Hr'. injection Hr' as <-. exists (Some e), w6.
      split; [assumption|].
      split; [unfold writes; spell; reflexivity|].
      split; [intros _; split; [reflexivity|unfold records; spell; reflexivity]
             |discriminate].
    + destruct (timeNow w6) as [t1 w7] eqn:Hn2.
      pose proof (pass_responded _ Hm Hr Hd Hn Hh Hl Hcall Hw Hn2) as Hi.
      eexists _, _, _. split; [exact Hi|].
      split; [split; [unfold writes; spell; discriminate|discriminate]|].
      split; [discriminate|].
      split; [|split; [discriminate
                      |intros _; exact (session_goes_round _ Hc Hi Hlt)]].
      intros r' Hr'. injection Hr' as <-. exists None, w6.
      split; [assumption|].
      split; [unfold writes; spell; reflexivity|].
      split; [congruence|].
      intros _ t1' w7' Hn2'. rewrite Hn2 in Hn2'. injection Hn2' as <- <-.
      split; [reflexivity|]. split; [reflexivity|].
      split; [unfold records; spell; reflexivity|].
      split; [|exact (continues_snoc _ _ Hc Hi)].
      rewrite !app_assoc. eexists. reflexivity.
  - pose proof (pass_one_way _ Hm Hr Hd Hn Hh Hl Hcall) as Hi.
    eexists _, _, _. split; [exact Hi|].
    split; [split; [reflexivity|intros _; unfold writes; spell; reflexivity]|].
    split; [|split; [discriminate|split;
                      [discriminate
                      |intros _; exact (session_goes_round _ Hc Hi Hlt)]]].
    intros _. split; [reflexivity|]. split; [reflexivity|].
    split; [unfold records; spell; reflexivity|].
    exact (continues_snoc _ _ Hc Hi).
Qed.

(** ** Error increments over a whole session *)

Lemma errorThenPassive_split t :
  errorThenPassive t = true ->
  exists pre n tag post,
    t = pre ++ EvAdd ReceivedMessageErrors n tag :: post /\
    addsOf ReceivedMessageErrors pre = [] /\
    forallb passive post = true.
Proof.
  induction t as [|e t IH]; simpl; [discriminate|].
  intros Hq.
  destruct e;
    try match goal with c : Counter |- _ => destruct c end;
    simpl in Hq;
    try (destruct (IH Hq) as (pre & n' & tag' & post & -> & Hpre & Hpost);
         eexists (_ :: pre), n', tag', post;
         split; [reflexivity|]; split; [exact Hpre|exact Hpost]).
  match goal with
  | |- context [EvAdd ReceivedMessageErrors ?n ?tag :: t] =>
      exists [], n, tag, t
  end.
  now repeat split.
Qed.

(** A pass increments ReceivedMessageErrors not at all, or once, by one,
    on its way to [return false]. *)
Lemma pass_errors w o tl w' :
  iteration dht s (RemotePeer s) w = (o, tl, w') ->
  addsOf ReceivedMessageErrors tl = []
  \/ (o = Return false /\ errorThenPassive tl = true /\
      exists tag, addsOf ReceivedMessageErrors tl = [(1, tag)]).
Proof.
  intros Hi. pose proof (pass_total w) as HP. rewrite Hi in HP.
  by_path HP; unfold addsOf; spell;
    first [ left; reflexivity
          | right; split; [reflexivity|]; split; [reflexivity|];
            eexists; reflexivity ].
Qed.

Lemma continues_errors k w0 t w :
  continues k dht s w0 = Some (t, w) -> addsOf ReceivedMessageErrors t = [].
Proof.
  revert k w0 t w. apply continues_pick_nil. intros w t w' Hi.
  destruct (pass_errors _ Hi) as [Hnil|(Ho & _)]; [exact Hnil|discriminate].
Qed.

Lemma session_log_errors t tl :
  addsOf ReceivedMessageErrors t = [] ->
  addsOf ReceivedMessageErrors
         (EvAfterFunc dhtStreamIdleTimeout :: t ++ tl ++ [EvTimerStop])
    = addsOf ReceivedMessageErrors tl.
Proof.
  intros Ht. unfold addsOf in *.
  change (EvAfterFunc dhtStreamIdleTimeout :: t ++ tl ++ [EvTimerStop])
    with ([EvAfterFunc dhtStreamIdleTimeout] ++ t ++ tl ++ [EvTimerStop]).
  rewrite !pick_app, Ht. cbn [pick app]. now rewrite app_nil_r.
Qed.

(** C10.  Over a whole session ReceivedMessageErrors is incremented at
    most once, and by one.  When it is, the session returns [false], the
    increment lies in the pass that returns, no earlier pass has one, and
    what that pass logs after it is instrumentation and log lines only,
    up to the return.  A session whose returning pass stops at the mode
    gate, on [io.EOF], or on a read error with an empty payload has no
    such increment. *)
Theorem error_counted_at_most_once fuel w0 :
  let r := fst (fst (handleNewMessage fuel dht s w0)) in
  let log := snd (fst (handleNewMessage fuel dht s w0)) in
  (addsOf ReceivedMessageErrors log = [] \/
   exists tag, addsOf ReceivedMessageErrors log = [(1, tag)]) /\
  (addsOf ReceivedMessageErrors log <> [] ->
   r = Some false /\
   exists k t w tl w' pre tag post,
     (k < fuel)%nat /\
     continues k dht s w0 = Some (t, w) /\
     iteration dht s (RemotePeer s) w = (Return false, tl, w') /\
     log = EvAfterFunc dhtStreamIdleTimeout :: t ++ tl ++ [EvTimerStop] /\
     addsOf ReceivedMessageErrors t = [] /\
     tl = pre ++ EvAdd ReceivedMessageErrors 1 tag :: post /\
     addsOf ReceivedMessageErrors pre = [] /\
     forallb passive post = true) /\
  (forall k t w,
      (k < fuel)%nat ->
      continues k dht s w0 = Some (t, w) ->
      (fst (getMode dht w) <> modeServer \/
       exists w1 b e w2,
         getMode dht w = (modeServer, w1) /\
         ReadMsg s w1 = ((b, Some e), w2) /\
         (e = io_EOF \/ List.length b = 0%nat)) ->
      r <> None /\ addsOf ReceivedMessageErrors log = []).
Proof.
  intros r log. subst r log.
  split; [|split].
  - destruct (session_cases fuel w0)
      as [(k & t & w & b & tl & w' & Hlt & Hc & Hr)|(t & w & Hc)].
    + rewrite (session_final _ Hc Hr Hlt). simpl fst. simpl snd.
      rewrite session_log_errors by exact (continues_errors _ _ Hc).
      destruct (pass_errors _ Hr) as [Hnil|(_ & _ & Hone)]; auto.
    + rewrite (session_running _ _ Hc). simpl fst. simpl snd. left.
      pose proof (continues_errors _ _ Hc) as Ht. unfold addsOf in *.
      exact Ht.
  - destruct (session_cases fuel w0)
      as [(k & t & w & b & tl & w' & Hlt & Hc & Hr)|(t & w & Hc)].
    + rewrite (session_final _ Hc Hr Hlt). simpl fst. simpl snd.
      rewrite session_log_errors by exact (continues_errors _ _ Hc).
      intros Hne.
      destruct (pass_errors _ Hr) as [Hnil|(Hb & Hq & tag & Hone)];
        [congruence|].
      injection Hb as ->. split; [reflexivity|].
      destruct (errorThenPassive_split _ Hq)
        as (pre & n & tag' & post & Htl & Hpre & Hpost).
      assert (Hn : n = 1 /\ tag' = tag).
      { rewrite Htl in Hone. unfold addsOf in Hone, Hpre.
        rewrite pick_app, Hpre in Hone. simpl in Hone.
        injection Hone as -> -> _. now split. }
      destruct Hn as [-> ->].
      exists k, t, w, tl, w', pre, tag, post.
      repeat split; try assumption.
      exact (continues_errors _ _ Hc).
    + rewrite (session_running _ _ Hc). simpl fst. simpl snd. intros Hne.
      exfalso. apply Hne. pose proof (continues_errors _ _ Hc) as Ht.
      unfold addsOf in *. exact Ht.
  - intros k t w Hlt Hc Hend.
    assert (Hpass : exists b tl w',
               iteration dht s (RemotePeer s) w = (Return b, tl, w') /\
               addsOf ReceivedMessageErrors tl = []).
    { destruct Hend as [Hgate|(w1 & b & e & w2 & Hm & Hr & He)].
      - destruct (getMode dht w) as [m w1] eqn:Hm. simpl in Hgate.
        eexists _, _, _. split; [exact (pass_gate _ Hm Hgate)|].
        unfold addsOf. spell; reflexivity.
      - destruct e as [|txt].
        + eexists _, _, _. split; [exact (pass_eof _ Hm Hr)|reflexivity].
        + destruct He as [He|Hlen]; [discriminate|].
          eexists _, _, _.
          split; [apply (pass_read_error _ Hm Hr); discriminate|].
          rewrite Hlen. change (0 <? Z.of_nat 0) with false.
          unfold addsOf. spell; reflexivity. }
    destruct Hpass as (b & tl & w' & Hi & Hnil).
    rewrite (session_final _ Hc Hi Hlt). simpl fst. simpl snd.
    split; [discriminate|].
    now rewrite session_log_errors by exact (continues_errors _ _ Hc).
Qed.


(** * Further properties of the session *)

(** ** From passes to sessions *)

(** A property of logs that holds of the empty log, of the two timer
    entries and of the log of every pass, and that is kept by appending,
    holds of the log of every session. *)
Lemma session_log_closed (Q : list Event -> Prop) :
  Q [] ->
  (forall a b, Q a -> Q b -> Q (a ++ b)) ->
  (forall w, Q (snd (fst (iteration dht s (RemotePeer s) w)))) ->
  Q [EvAfterFunc dhtStreamIdleTimeout] ->
  Q [EvTimerStop] ->
  forall fuel w0, Q (snd (fst (handleNewMessage fuel dht s w0))).
Proof.
  intros Hnil Happ Hpass Harm Hstop fuel w0.
  assert (Hpre : forall k w0 t w, continues k dht s w0 = Some (t, w) -> Q t).
  { induction k as [|k IH]; intros v0 t w Hc; simpl in Hc.
    - now injection Hc as <- <-.
    - pose proof (Hpass v0) as Hp.
      destruct (iteration dht s (RemotePeer s) v0) as [[[|b] t1] w1];
        [|discriminate].
      destruct (continues k dht s w1) as [[t2 w2]|] eqn:Hk; [|discriminate].
      injection Hc as <- <-. apply Happ; [exact Hp|exact (IH _ _ _ Hk)]. }
  destruct (session_cases fuel w0)
    as [(k & t & w & b & tl & w' & Hlt & Hc & Hr)|(t & w & Hc)].
  - rewrite (session_final _ Hc Hr Hlt). cbn [fst snd].
    change (EvAfterFunc dhtStreamIdleTimeout :: t ++ tl ++ [EvTimerStop])
      with ([EvAfterFunc dhtStreamIdleTimeout] ++ t ++ tl ++ [EvTimerStop]).
    apply Happ; [exact Harm|]. apply Happ; [exact (Hpre _ _ _ _ Hc)|].
    apply Happ; [|exact Hstop].
    pose proof (Hpass w) as Hp. now rewrite Hr in Hp.
  - rewrite (session_running _ _ Hc). cbn [fst snd].
    change (EvAfterFunc dhtStreamIdleTimeout :: t)
      with ([EvAfterFunc dhtStreamIdleTimeout] ++ t).
    apply Happ; [exact Harm|exact (Hpre _ _ _ _ Hc)].
Qed.

(** The shape of what a pass logs, whatever its path. *)
Ltac every_path w :=
  let HP := fresh "HP" in
  pose proof (pass_total w) as HP;
  destruct (iteration dht s (RemotePeer s) w) as [[? ?] ?];
  cbn [fst snd]; by_path HP.

(** ** The watchdog's lifetime *)

(** X1.  A session arms the watchdog exactly once, with
    [dhtStreamIdleTimeout], before the first pass of the loop, so before
    any mode check, read, counter or handler call; it stops it exactly
    once, when it returns, after everything the loop did, and not before;
    [handleNewStream] therefore closes or resets the stream right after the
    watchdog was stopped.  (The construction of the frame reader and the
    lookup of the remote peer, lines 38 and 40, come before the arming;
    they are not entries of the log.) *)
Theorem watchdog_armed_before_loop_stopped_on_return fuel w0 :
  let r := fst (fst (handleNewMessage fuel dht s w0)) in
  let log := snd (fst (handleNewMessage fuel dht s w0)) in
  let slog := snd (fst (handleNewStream fuel dht s w0)) in
  arms log = [dhtStreamIdleTimeout] /\
  (r = None ->
   stops log = [] /\
   exists body, log = EvAfterFunc dhtStreamIdleTimeout :: body) /\
  (forall b, r = Some b ->
     exists body,
       log = EvAfterFunc dhtStreamIdleTimeout :: body ++ [EvTimerStop] /\
       arms body = [] /\ stops body = [] /\
       slog = EvAfterFunc dhtStreamIdleTimeout
                :: body ++ [EvTimerStop; if b then EvClose else EvReset]).
Proof.
  intros r log slog. subst r log slog.
  assert (Hpass : forall w o tl w',
             iteration dht s (RemotePeer s) w = (o, tl, w') ->
             arms tl = [] /\ stops tl = []).
  { intros w o tl w' Hi. pose proof (pass_total w) as HP. rewrite Hi in HP.
    unfold arms, stops. by_path HP; spell; split; reflexivity. }
  assert (Hpre : forall k w0 t w,
             continues k dht s w0 = Some (t, w) ->
             arms t = [] /\ stops t = []).
  { intros k v0 t w Hc. split.
    - revert k v0 t w Hc. apply continues_pick_nil.
      intros w t w' Hi. exact (proj1 (Hpass _ _ _ _ Hi)).
    - revert k v0 t w Hc. apply continues_pick_nil.
      intros w t w' Hi. exact (proj2 (Hpass _ _ _ _ Hi)). }
  rewrite handleNewStream_unfold.
  destruct (session_cases fuel w0)
    as [(k & t & w & b & tl & w' & Hlt & Hc & Hr)|(t & w & Hc)].
  - rewrite (session_final _ Hc Hr Hlt). cbn [fst snd].
    destruct (Hpre _ _ _ _ Hc) as [Ha Hs].
    destruct (Hpass _ _ _ _ Hr) as [Ha' Hs'].
    assert (Hbody : arms (t ++ tl) = [] /\ stops (t ++ tl) = []).
    { unfold arms, stops in *. now rewrite !pick_app, Ha, Hs, Ha', Hs'. }
    split; [|split].
    + unfold arms in *. cbn [pick]. now rewrite !pick_app, Ha, Ha'.
    + discriminate.
    + intros b' Hb. injection Hb as <-. exists (t ++ tl).
      rewrite <- !app_assoc. split; [reflexivity|].
      split; [exact (proj1 Hbody)|]. split; [exact (proj2 Hbody)|].
      destruct b; cbn [fst snd]; simpl; repeat (rewrite <- app_assoc; simpl);
        reflexivity.
  - rewrite (session_running _ _ Hc). cbn [fst snd].
    destruct (Hpre _ _ _ _ Hc) as [Ha Hs].
    split; [|split].
    + unfold arms in *. cbn [pick]. now rewrite Ha.
    + intros _. split; [|now exists t]. unfold stops in *. now cbn [pick].
    + discriminate.
Qed.


(** ** Buffers, bytes and instruments over a whole session *)

Lemma total_app (a b : list Z) : total (a ++ b) = total a + total b.
Proof.
  unfold total. induction a as [|x a IH]; simpl; [reflexivity|].
  rewrite IH. lia.
Qed.

Lemma payload_nonneg (b : list byte) : (0 <=? Z.of_nat (List.length b)) = true.
Proof. apply Z.leb_le. lia. Qed.

(** X2.  Every buffer the reader hands out is given back to its pool, once
    and in the order of the reads, whichever way the pass that read it
    ends: over any session the released buffers are the buffers read. *)
Theorem buffers_released_as_read fuel w0 :
  let log := snd (fst (handleNewMessage fuel dht s w0)) in
  releases log = map fst (reads log).
Proof.
  intros log. subst log.
  apply (session_log_closed (fun l => releases l = map fst (reads l))).
  - reflexivity.
  - intros a b Ha Hb. unfold releases, reads in *.
    now rewrite !pick_app, map_app, Ha, Hb.
  - intros w. every_path w; unfold releases, reads; spell; reflexivity.
  - reflexivity.
  - reflexivity.
Qed.

(** X3.  Over any session the amounts added to ReceivedBytes sum to the
    payload lengths of all reads that did not report [io.EOF], and the
    increments of ReceivedMessages are those of ReceivedBytes one for one:
    same order, same message type, amount one. *)
Theorem received_bytes_account_for_reads fuel w0 :
  let log := snd (fst (handleNewMessage fuel dht s w0)) in
  total (countedBytes log) = total (readBytes log) /\
  addsOf ReceivedMessages log
    = map (fun x => (1, snd x)) (addsOf ReceivedBytes log).
Proof.
  intros log. subst log.
  apply (session_log_closed
           (fun l => total (countedBytes l) = total (readBytes l) /\
                     addsOf ReceivedMessages l
                       = map (fun x => (1, snd x)) (addsOf ReceivedBytes l))).
  - now split.
  - intros a b [Ha1 Ha2] [Hb1 Hb2]. unfold countedBytes, readBytes, addsOf in *.
    rewrite !pick_app, !total_app, map_app, Ha1, Hb1, Ha2, Hb2. now split.
  - intros w. pose proof (pass_total w) as HP.
    destruct (iteration dht s (RemotePeer s) w) as [[o tl] w']. cbn [fst snd].
    unfold countedBytes, readBytes, addsOf.
    by_path HP.
    3:{ destruct e as [|txt]; [congruence|].
        destruct (0 <? Z.of_nat (List.length b)) eqn:E;
          unfold readErrorLine, unknownTriple;
          destruct (debugLevel && negb (Error (errorString txt) =? "stream reset")%string);
          cbn; (split; [|reflexivity]); try reflexivity;
          apply Z.ltb_ge in E; lia. }
    all: spell; split; reflexivity.
  - now split.
  - now split.
Qed.

(** X4.  A session touches no instrument of the outbound leg: every
    counter it increments is ReceivedMessages, ReceivedMessageErrors or
    ReceivedBytes, by an amount that is not negative, and every sample it
    records goes to InboundRequestLatency. *)
Theorem only_inbound_instruments fuel w0 :
  let log := snd (fst (handleNewMessage fuel dht s w0)) in
  forallb inboundOnly log = true.
Proof.
  intros log. subst log.
  apply (session_log_closed (fun l => forallb inboundOnly l = true)).
  - reflexivity.
  - intros a b Ha Hb. now rewrite forallb_app, Ha, Hb.
  - intros w. every_path w; spell; rewrite ?payload_nonneg; reflexivity.
  - reflexivity.
  - reflexivity.
Qed.

(** X5.  Over any session there are exactly as many InboundRequestLatency
    samples as responses the writer accepted. *)
Theorem one_sample_per_delivered_response fuel w0 :
  let log := snd (fst (handleNewMessage fuel dht s w0)) in
  List.length (records log) = List.length (delivered log).
Proof.
  intros log. subst log.
  apply (session_log_closed
           (fun l => List.length (records l) = List.length (delivered l))).
  - reflexivity.
  - intros a b Ha Hb. unfold records, delivered in *.
    now rewrite !pick_app, !length_app, Ha, Hb.
  - intros w. every_path w; unfold records, delivered; spell; reflexivity.
  - reflexivity.
  - reflexivity.
Qed.

(** X6.  Requests are not pipelined: on the stream of a session, a write
    only ever comes right after a read, so the response to a frame is
    written before the next frame is read, nothing is written before the
    first read, and no frame is answered twice. *)
Theorem responses_follow_their_request fuel w0 :
  let log := snd (fst (handleNewMessage fuel dht s w0)) in
  readThenWrite (ioTrace log) = true.
Proof.
  intros log. subst log.
  assert (H0 : forall rest, readThenWrite rest = true ->
                 readThenWrite
                   (ioTrace (snd (fst (handleNewMessage fuel dht s w0))) ++ rest)
                 = true).
  { apply (session_log_closed
             (fun l => forall rest, readThenWrite rest = true ->
                                    readThenWrite (ioTrace l ++ rest) = true)).
    - intros rest Hr. exact Hr.
    - intros a b Ha Hb rest Hr. unfold ioTrace in *.
      rewrite pick_app, <- app_assoc. apply Ha. now apply Hb.
    - intros w. every_path w; unfold ioTrace; spell; intros rest Hr;
        try exact Hr; destruct rest as [|[|] rest']; simpl in *;
        congruence.
    - intros rest Hr. exact Hr.
    - intros rest Hr. exact Hr. }
  specialize (H0 [] eq_refl). now rewrite app_nil_r in H0.
Qed.


(** ** How a session advances and how it ends *)

(** The paths a pass can have taken, given what is known of its result. *)
Ltac by_result HP :=
  inversion HP as [ | | | | ? ? ? ? ? ? ? ? ? ? ? ? ? ? ? ? HD ]; subst;
  try (inversion HD; subst).

Lemma continue_pass_shape w tl w' :
  iteration dht s (RemotePeer s) w = (Continue, tl, w') ->
  exists b req,
    reads tl = [(b, None)] /\ decodes tl = [b] /\
    rearms tl = [dhtStreamIdleTimeout] /\ handlerCalls tl = [req] /\
    writes tl = map (fun r => (r, None)) (delivered tl) /\
    (List.length (writes tl) <= 1)%nat.
Proof.
  intros Hi. pose proof (pass_total w) as HP. rewrite Hi in HP.
  by_result HP; eexists _, _;
    unfold reads, decodes, rearms, handlerCalls, writes, delivered; spell;
    repeat split; auto.
Qed.

Lemma continues_counts k : forall w0 t w,
  continues k dht s w0 = Some (t, w) ->
  List.length (reads t) = k /\
  Forall (fun r => snd r = None) (reads t) /\
  List.length (decodes t) = k /\
  rearms t = repeat dhtStreamIdleTimeout k /\
  List.length (handlerCalls t) = k /\
  writes t = map (fun r => (r, None)) (delivered t) /\
  (List.length (writes t) <= k)%nat.
Proof.
  induction k as [|k IH]; intros w0 t w Hc; simpl in Hc.
  - injection Hc as <- <-. repeat split; auto.
  - destruct (iteration dht s (RemotePeer s) w0) as [[[|b] t1] w1] eqn:Hi;
      [|discriminate].
    destruct (continues k dht s w1) as [[t2 w2]|] eqn:Hk; [|discriminate].
    injection Hc as <- <-.
    destruct (continue_pass_shape _ Hi)
      as (b & req & Hr & Hd & Ha & Hh & Hw & Hwl).
    destruct (IH _ _ _ Hk) as (Ir & If & Id & Ia & Ih & Iw & Iwl).
    unfold reads, decodes, rearms, handlerCalls, writes, delivered in *.
    rewrite !pick_app, !length_app, map_app, Hr, Hd, Ha, Hh, Hw, Ir, Id, Ia,
      Ih, Iw.
    rewrite Hw in Hwl. rewrite Iw in Iwl.
    repeat split; try reflexivity.
    + constructor; [reflexivity|exact If].
    + simpl. lia.
Qed.

(** X7.  The loop never goes round without consuming a frame: a session
    that is still running after [n] passes has read exactly [n] frames,
    each without error, decoded every one of them, rearmed the watchdog
    [n] times, called a handler [n] times, and written at most [n]
    responses, all of which the writer accepted; it has counted no
    error. *)
Theorem running_session_consumes_a_frame_per_pass fuel w0 :
  fst (fst (handleNewMessage fuel dht s w0)) = None ->
  let log := snd (fst (handleNewMessage fuel dht s w0)) in
  List.length (reads log) = fuel /\
  Forall (fun r => snd r = None) (reads log) /\
  List.length (decodes log) = fuel /\
  rearms log = repeat dhtStreamIdleTimeout fuel /\
  List.length (handlerCalls log) = fuel /\
  writes log = map (fun r => (r, None)) (delivered log) /\
  (List.length (writes log) <= fuel)%nat /\
  addsOf ReceivedMessageErrors log = [].
Proof.
  destruct (session_cases fuel w0)
    as [(k & t & w & b & tl & w' & Hlt & Hc & Hr)|(t & w & Hc)].
  - rewrite (session_final _ Hc Hr Hlt). discriminate.
  - rewrite (session_running _ _ Hc). cbn [fst snd]. intros _.
    destruct (continues_counts _ _ Hc) as (Ir & If & Id & Ia & Ih & Iw & Iwl).
    pose proof (continues_errors _ _ Hc) as He.
    unfold reads, decodes, rearms, handlerCalls, writes, delivered, addsOf in *.
    cbn [pick]. repeat split; assumption.
Qed.

(** X8.  A session returns [true] only on [io.EOF]: if it returned [true],
    its last pass found the node in server mode, asked the reader for a
    frame and was handed [io.EOF]; it logged the mode check, the read and
    the release and nothing else, and the whole session has not counted a
    single error. *)
Theorem orderly_only_on_eof fuel w0 log w' :
  handleNewMessage fuel dht s w0 = (Some true, log, w') ->
  exists k t w w1 b,
    (k < fuel)%nat /\
    continues k dht s w0 = Some (t, w) /\
    getMode dht w = (modeServer, w1) /\
    ReadMsg s w1 = ((b, Some io_EOF), w') /\
    log = EvAfterFunc dhtStreamIdleTimeout
            :: t ++ [EvGetMode modeServer; EvReadMsg b (Some io_EOF);
                     EvReleaseMsg b] ++ [EvTimerStop] /\
    addsOf ReceivedMessageErrors log = [].
Proof.
  intros Hs.
  destruct (session_cases fuel w0)
    as [(k & t & w & b & tl & w1 & Hlt & Hc & Hr)|(t & w & Hc)].
  2:{ rewrite (session_running _ _ Hc) in Hs. discriminate. }
  rewrite (session_final _ Hc Hr Hlt) in Hs. injection Hs as -> <- ->.
  pose proof (pass_total w) as HP. rewrite Hr in HP.
  by_result HP.
  match goal with
  | Hm : getMode dht w = _, Hrd : ReadMsg s _ = _ |- _ =>
      eexists k, t, w, _, _;
      split; [exact Hlt|]; split; [exact Hc|]; split; [exact Hm|];
      split; [exact Hrd|]; split; [reflexivity|]
  end.
  rewrite session_log_errors by exact (continues_errors _ _ Hc).
  reflexivity.
Qed.

(** X9.  [io.EOF] ends the session in order even when the reader hands a
    non-empty buffer back with it: the session returns [true], the buffer
    is released, and its bytes are neither decoded nor counted. *)
Theorem eof_with_payload_closes_orderly k w0 t w w1 b w2 fuel :
  continues k dht s w0 = Some (t, w) ->
  getMode dht w = (modeServer, w1) ->
  ReadMsg s w1 = ((b, Some io_EOF), w2) ->
  (0 < List.length b)%nat ->
  (k < fuel)%nat ->
  let tl := [EvGetMode modeServer; EvReadMsg b (Some io_EOF); EvReleaseMsg b] in
  handleNewMessage fuel dht s w0 =
    (Some true,
     EvAfterFunc dhtStreamIdleTimeout :: t ++ tl ++ [EvTimerStop], w2) /\
  adds tl = [] /\ decodes tl = [] /\ releases tl = [b] /\
  total (readBytes tl) = 0.
Proof.
  intros Hc Hm Hr _ Hlt tl.
  split; [exact (session_final _ Hc (pass_eof _ Hm Hr) Hlt)|].
  repeat split.
Qed.


(** ** The request hook and the log lines *)

(** X10.  The request hook runs only in a pass that decoded a frame, once,
    when one is configured; it is handed the decoded request after the two
    receipt counters were incremented and before the handler is looked up.
    The lookup and the handler get the request as the hook leaves it, while
    every counter and sample of the pass carries the type the frame was
    decoded with. *)
Theorem request_hook_between_receipt_and_lookup :
  (forall w,
      let tl := snd (fst (iteration dht s (RemotePeer s) w)) in
      hookCalls tl = [] \/
      exists hook w1 b w2 req0,
        onRequestHook dht = Some hook /\
        getMode dht w = (modeServer, w1) /\
        ReadMsg s w1 = ((b, None), w2) /\
        Unmarshal b = inl req0 /\
        hookCalls tl = [req0]) /\
  (forall w w1 b w2 req0 t0 w3,
      getMode dht w = (modeServer, w1) ->
      ReadMsg s w1 = ((b, None), w2) ->
      Unmarshal b = inl req0 ->
      timeNow w2 = (t0, w3) ->
      let tl := snd (fst (iteration dht s (RemotePeer s) w)) in
      let req := fst (hooked dht req0 w3) in
      hookCalls tl = (if is_some (onRequestHook dht) then [req0] else []) /\
      (exists post,
          tl = received dht b req0
                 ++ EvHandlerForMsgType
                      (GetType req)
                      (is_some (handlerForMsgType dht (GetType req)))
                 :: post /\
          hookCalls post = []) /\
      lookups tl = [GetType req] /\
      (forall h, handlerForMsgType dht (GetType req) = Some h ->
                 handlerCalls tl = [req]) /\
      (forall x, In x (tags tl) -> x = MessageType_String (GetType req0)) /\
      (onRequestHook dht = None -> req = req0)).
Proof.
  split.
  - intros w tl. subst tl. pose proof (pass_total w) as HP.
    destruct (iteration dht s (RemotePeer s) w) as [[o tl] w']. cbn [fst snd].
    destruct (onRequestHook dht) as [hook|] eqn:Hk.
    + by_path HP;
        try (left; unfold hookCalls; spell; reflexivity);
        right; eexists hook, _, _, _, _;
        (split; [reflexivity|]); (split; [eassumption|]);
        (split; [eassumption|]); (split; [eassumption|]);
        unfold hookCalls, received, hookLine; rewrite Hk; spell; reflexivity.
    + left. by_path HP; unfold hookCalls, received, hookLine; rewrite ?Hk;
        spell; reflexivity.
  - intros w w1 b w2 req0 t0 w3 Hm Hr Hd Hn tl req. subst tl req.
    pose proof (pass_total w) as HP.
    destruct (iteration dht s (RemotePeer s) w) as [[o tl] w']. cbn [fst snd].
    by_path HP; try congruence; same;
      match goal with Hh : hooked dht _ _ = _ |- _ => rewrite Hh end;
      cbn [fst];
      match goal with Hh : hooked dht _ _ = _ |- _ =>
        unfold hooked in Hh end;
      match goal with Hl : handlerForMsgType dht _ = _ |- _ => rewrite Hl end;
      unfold hookCalls, lookups, handlerCalls, tags, received, hookLine;
      destruct (onRequestHook dht) as [hook|] eqn:Hk; cbn [is_some];
      (split; [spell; reflexivity|]);
      (split; [eexists; split; [simpl; rewrite <- ?app_assoc; reflexivity
                               |spell; reflexivity]|]);
      (split; [spell; reflexivity|]);
      (split; [intros; try congruence; spell; reflexivity|]);
      (split; [intros x Hin; revert Hin; spell; intros Hin;
               repeat destruct Hin as [<-|Hin]; try reflexivity;
               contradiction|]);
      intros; congruence.
Qed.

(** X11.  A read error whose text is "stream reset" leaves no log line,
    whatever the log level; any other read error leaves the line "error
    reading message" when debug logging is on.  Both end the session with
    [false] and are counted alike, by the three "UNKNOWN" increments when
    a payload came with the error. *)
Theorem stream_reset_not_logged k w0 t w w1 b e w2 fuel :
  continues k dht s w0 = Some (t, w) ->
  getMode dht w = (modeServer, w1) ->
  ReadMsg s w1 = ((b, Some e), w2) ->
  e <> io_EOF ->
  (k < fuel)%nat ->
  let tl := snd (fst (iteration dht s (RemotePeer s) w)) in
  fst (fst (handleNewMessage fuel dht s w0)) = Some false /\
  (Error e = "stream reset" -> logLines tl = []) /\
  (Error e <> "stream reset" ->
   logLines tl = if debugLevel then ["error reading message"] else []) /\
  adds tl = if 0 <? Z.of_nat (List.length b)
            then [(ReceivedMessages, 1, "UNKNOWN");
                  (ReceivedMessageErrors, 1, "UNKNOWN");
                  (ReceivedBytes, Z.of_nat (List.length b), "UNKNOWN")]
            else [].
Proof.
  intros Hc Hm Hr Hne Hlt tl. subst tl.
  pose proof (pass_read_error _ Hm Hr Hne) as Hi.
  rewrite (session_final _ Hc Hi Hlt), Hi. cbn [fst snd].
  split; [reflexivity|].
  unfold logLines, adds, readErrorLine, unknownTriple.
  split; [|split].
  - intros Ht. apply String.eqb_eq in Ht. rewrite Ht, andb_false_r.
    destruct (0 <? Z.of_nat (List.length b)); reflexivity.
  - intros Ht. apply String.eqb_neq in Ht. rewrite Ht, andb_true_r.
    destruct debugLevel, (0 <? Z.of_nat (List.length b)); reflexivity.
  - destruct (debugLevel && negb (Error e =? "stream reset")%string),
      (0 <? Z.of_nat (List.length b)); reflexivity.
Qed.


(** X13.  Why a session returns [false], and when that is counted.  The
    returning pass either stopped at the mode gate or on a read error
    without payload, and then the whole session counted no error; or it
    stopped on a read error with payload or an undecodable frame, and the
    session counted one error with message type "UNKNOWN"; or it decoded a
    frame and failed at the lookup, in the handler or at the write, and the
    session counted one error with the decoded type. *)
Theorem abort_counted_unless_gate_or_empty_read fuel w0 log w' :
  handleNewMessage fuel dht s w0 = (Some false, log, w') ->
  exists k t w,
    (k < fuel)%nat /\
    continues k dht s w0 = Some (t, w) /\
    ((addsOf ReceivedMessageErrors log = [] /\
      (fst (getMode dht w) <> modeServer \/
       exists w1 b e w2,
         getMode dht w = (modeServer, w1) /\
         ReadMsg s w1 = ((b, Some e), w2) /\
         e <> io_EOF /\ List.length b = 0%nat))
     \/
     (addsOf ReceivedMessageErrors log = [(1, "UNKNOWN")] /\
      exists w1 b w2,
        getMode dht w = (modeServer, w1) /\
        ((exists e, ReadMsg s w1 = ((b, Some e), w2) /\ e <> io_EOF /\
                    (0 < List.length b)%nat)
         \/ (exists e, ReadMsg s w1 = ((b, None), w2) /\ Unmarshal b = inr e)))
     \/
     (exists w1 b w2 req0 t0 w3 req w4,
         getMode dht w = (modeServer, w1) /\
         ReadMsg s w1 = ((b, None), w2) /\
         Unmarshal b = inl req0 /\
         timeNow w2 = (t0, w3) /\
         hooked dht req0 w3 = (req, w4) /\
         addsOf ReceivedMessageErrors log
           = [(1, MessageType_String (GetType req0))] /\
         (handlerForMsgType dht (GetType req) = None
          \/ (exists h resp e w5,
                 handlerForMsgType dht (GetType req) = Some h /\
                 h (RemotePeer s) req w4 = ((resp, Some e), w5))
          \/ (exists h resp w5 e w6,
                 handlerForMsgType dht (GetType req) = Some h /\
                 h (RemotePeer s) req w4 = ((Some resp, None), w5) /\
                 WriteMsg s resp (handledLogged w5) = (Some e, w6))))).
Proof.
  intros Hs.
  destruct (session_cases fuel w0)
    as [(k & t & w & b & tl & w1 & Hlt & Hc & Hr)|(t & w & Hc)].
  2:{ rewrite (session_running _ _ Hc) in Hs. discriminate. }
  rewrite (session_final _ Hc Hr Hlt) in Hs. injection Hs as -> <- ->.
  exists k, t, w. split; [exact Hlt|]. split; [exact Hc|].
  rewrite session_log_errors by exact (continues_errors _ _ Hc).
  pose proof (pass_total w) as HP. rewrite Hr in HP.
  by_result HP.
  - (* the mode gate *)
    left. split; [unfold addsOf; spell; reflexivity|].
    left. match goal with Hm : getMode dht w = _ |- _ => now rewrite Hm end.
  - (* a read error *)
    match goal with
    | Hrd : ReadMsg s _ = ((?bb, Some _), _) |- _ =>
        destruct (0 <? Z.of_nat (List.length bb)) eqn:E
    end.
    + right. left. split; [unfold addsOf; spell; reflexivity|].
      apply Z.ltb_lt in E. eexists _, _, _. split; [eassumption|].
      left. eexists. split; [eassumption|]. split; [assumption|lia].
    + left. split; [unfold addsOf; spell; reflexivity|].
      apply Z.ltb_ge in E. right. eexists _, _, _, _.
      split; [eassumption|]. split; [eassumption|]. split; [assumption|lia].
  - (* an undecodable frame *)
    right. left. split; [unfold addsOf; spell; reflexivity|].
    eexists _, _, _. split; [eassumption|]. right. eexists. split; eassumption.
  - (* no handler *)
    right. right. eexists _, _, _, _, _, _, _, _.
    repeat (split; [eassumption|]).
    split; [unfold addsOf; spell; reflexivity|]. now left.
  - (* the handler failed *)
    right. right. eexists _, _, _, _, _, _, _, _.
    repeat (split; [eassumption|]).
    split; [unfold addsOf; spell; reflexivity|].
    right. left. eexists _, _, _, _. split; eassumption.
  - (* the write failed *)
    right. right. eexists _, _, _, _, _, _, _, _.
    repeat (split; [eassumption|]).
    split; [unfold addsOf; spell; reflexivity|].
    right. right. eexists _, _, _, _, _. repeat (split; [eassumption|]).
    eassumption.
Qed.

End Facts.

(** * The network size gauge (metrics/metrics.go) *)

Lemma runGauge_app (a b : list GaugeOp) (v : Z) :
  runGauge (a ++ b) v =
    (fst (runGauge a v) ++ fst (runGauge b (snd (runGauge a v))),
     snd (runGauge b (snd (runGauge a v)))).
Proof.
  revert v. induction a as [|[size|] a IH]; intros v; simpl.
  - now destruct (runGauge b v).
  - apply IH.
  - rewrite IH. destruct (runGauge a v) as [o1 v1]. reflexivity.
Qed.

Lemma runGauge_collects (h : list GaugeOp) (v : Z) :
  forallb (fun o => negb (isSet o)) h = true ->
  runGauge h v = (repeat (v, ("instance", "default")) (List.length h), v).
Proof.
  induction h as [|[size|] h IH]; simpl; intros Hh;
    [reflexivity|discriminate|].
  now rewrite (IH Hh).
Qed.

(** X12.  The gauge reports the size set last.  Collections made before any
    [SetNetworkSize] observe zero; after a [SetNetworkSize(size)], whatever
    was set or collected before it, every collection made until the next
    set observes [size], tagged instance=default; a collection returns no
    error and leaves the variable as it was. *)
Theorem gauge_observes_last_size_set :
  (forall h,
      forallb (fun o => negb (isSet o)) h = true ->
      runGauge h networkSize_init
        = (repeat (0, ("instance", "default")) (List.length h), 0)) /\
  (forall h1 size h2 v,
      forallb (fun o => negb (isSet o)) h2 = true ->
      runGauge (h1 ++ OpSet size :: h2) v
        = (fst (runGauge h1 v)
             ++ repeat (size, ("instance", "default")) (List.length h2),
           size)) /\
  (forall v, networkSizeCallback v = ([(v, ("instance", "default"))], None, v)).
Proof.
  split; [|split].
  - intros h Hh. exact (runGauge_collects h networkSize_init Hh).
  - intros h1 size h2 v Hh. rewrite runGauge_app. simpl.
    unfold SetNetworkSize. now rewrite (runGauge_collects h2 size Hh).
  - reflexivity.
Qed.


(** * The session on explicit inputs *)

Module Runs.

Import Fixture.


(** C2 on a stream with two frames waiting while the node leaves server
    mode after the first: the session returns [false], has read one frame
    only, and the second is still in the transport. *)
Lemma mode_gate_run :
  let w0 := start [Server; Client] [pingFrame; findNodeFrame] [] in
  fst (fst (handleNewMessage 5 dht stream w0)) = Some false /\
  reads (snd (fst (handleNewMessage 5 dht stream w0))) = [pingFrame] /\
  inbox (snd (handleNewMessage 5 dht stream w0)) = [findNodeFrame].
Proof.
  intros w0.
  edestruct (proj2 (mode_gate_before_read dht stream) 1%nat w0)
    with (fuel := 5%nat) as (Hs & _);
    [vm_compute; reflexivity|vm_compute; reflexivity|discriminate|lia|].
  rewrite Hs. vm_compute. auto.
Defined.

(** C3 on a stream that carries one PING and then ends cleanly. *)
Lemma clean_eof_run :
  let w0 := start [] [pingFrame] [] in
  fst (fst (handleNewMessage 5 dht stream w0)) = Some true /\
  addsOf ReceivedMessageErrors (snd (fst (handleNewMessage 5 dht stream w0)))
    = [] /\
  adds (snd (fst (handleNewMessage 5 dht stream w0)))
    = [(ReceivedMessages, 1, "PING"); (ReceivedBytes, 1, "PING")].
Proof.
  intros w0.
  edestruct (@clean_eof_closes_orderly _ dht stream 1%nat w0)
    with (fuel := 5%nat) as (Hs & _);
    [vm_compute; reflexivity|vm_compute; reflexivity|vm_compute; reflexivity
    |reflexivity|lia|].
  rewrite Hs. vm_compute. auto.
Defined.

(** C4 on a stream whose first read hands back two bytes and an error. *)
Lemma read_error_run :
  let w0 := start [] [truncatedFrame] [] in
  fst (fst (handleNewMessage 5 dht stream w0)) = Some false /\
  adds (snd (fst (handleNewMessage 5 dht stream w0)))
    = [(ReceivedMessages, 1, "UNKNOWN");
       (ReceivedMessageErrors, 1, "UNKNOWN");
       (ReceivedBytes, 2, "UNKNOWN")].
Proof.
  intros w0.
  edestruct (@read_error_aborts _ dht stream 0%nat w0)
    with (fuel := 5%nat) as (Hs & _);
    [vm_compute; reflexivity|vm_compute; reflexivity|vm_compute; reflexivity
    |discriminate|lia|].
  rewrite Hs. vm_compute. auto.
Defined.

(** C5 on a stream whose first frame, of three bytes, does not decode,
    with a good frame behind it. *)
Lemma decode_error_run :
  let w0 := start [] [garbledFrame; pingFrame] [] in
  fst (fst (handleNewMessage 5 dht stream w0)) = Some false /\
  adds (snd (fst (handleNewMessage 5 dht stream w0)))
    = [(ReceivedMessages, 1, "UNKNOWN");
       (ReceivedMessageErrors, 1, "UNKNOWN");
       (ReceivedBytes, 3, "UNKNOWN")] /\
  inbox (snd (handleNewMessage 5 dht stream w0)) = [pingFrame].
Proof.
  intros w0.
  edestruct (@decode_error_aborts _ dht stream 0%nat w0)
    with (fuel := 5%nat) as (Hs & _);
    [vm_compute; reflexivity|vm_compute; reflexivity|vm_compute; reflexivity
    |vm_compute; reflexivity|lia|].
  rewrite Hs. vm_compute. auto.
Defined.

(** C6 on a stream whose only frame decodes and has no handler: the
    session log starts with the arming of the watchdog, the mode check,
    the read, the decode, the release and the rearm, before anything
    else. *)
Lemma watchdog_run :
  let w0 := start [] [unknownTypeFrame] [] in
  exists post rest,
    snd (fst (handleNewMessage 5 dht stream w0)) =
      [EvAfterFunc dhtStreamIdleTimeout; EvGetMode modeServer;
       EvReadMsg [x09] None; EvUnmarshal [x09] true; EvReleaseMsg [x09];
       EvTimerReset dhtStreamIdleTimeout] ++ post ++ rest.
Proof.
  intros w0.
  edestruct (proj2 (watchdog_rearmed_on_decode dht stream) 0%nat w0)
    with (fuel := 5%nat) as (post & r & rest & w'' & _ & _ & Hs);
    [vm_compute; reflexivity|vm_compute; reflexivity|vm_compute; reflexivity
    |vm_compute; reflexivity|lia|].
  exists post, rest. rewrite Hs. reflexivity.
Defined.

(** C7 on a stream that carries a PING and a FIND_NODE: the PING is
    counted once, answered, and the loop goes on to the FIND_NODE. *)
Lemma receipt_run :
  let w0 := start [] [pingFrame; findNodeFrame] [] in
  addsOf ReceivedMessages
         (snd (fst (iteration dht stream (RemotePeer stream) w0)))
    = [(1, "PING")] /\
  addsOf ReceivedBytes
         (snd (fst (iteration dht stream (RemotePeer stream) w0)))
    = [(1, "PING")] /\
  exists t w,
    continues 1 dht stream w0 = Some (t, w) /\ inbox w = [findNodeFrame].
Proof.
  intros w0.
  edestruct (@receipt_counted_before_dispatch _ dht stream 0%nat w0)
    with (fuel := 5%nat)
    as (o & post & w' & Hi & _ & Hm & Hb & Hpm & Hpb & _ & Hnext);
    [vm_compute; reflexivity|vm_compute; reflexivity|vm_compute; reflexivity
    |vm_compute; reflexivity|lia|].
  edestruct Hnext as (_ & _ & Hcont);
    [vm_compute; reflexivity|vm_compute; reflexivity|vm_compute; reflexivity
    |vm_compute; reflexivity|vm_compute; reflexivity|vm_compute; reflexivity|].
  rewrite (Hi : iteration dht stream (RemotePeer stream) w0 = _).
  cbn [fst snd]. unfold addsOf in *. rewrite !pick_app, Hm, Hb, Hpm, Hpb.
  split; [reflexivity|]. split; [reflexivity|].
  eexists _, _. split; [exact Hcont|reflexivity].
Defined.

(** C8 on a stream that carries a PING and then a GET_VALUE without key,
    which the handler refuses: one error increment, tagged GET_VALUE, the
    session returns [false], and only the PING was answered. *)
Lemma dispatch_failure_run :
  let w0 := start [] [pingFrame; getValueNoKeyFrame] [] in
  fst (fst (handleNewMessage 5 dht stream w0)) = Some false /\
  addsOf ReceivedMessageErrors (snd (fst (handleNewMessage 5 dht stream w0)))
    = [(1, "GET_VALUE")] /\
  wire (snd (handleNewMessage 5 dht stream w0))
    = [{| Type_ := PING; Key := [] |}].
Proof.
  intros w0.
  edestruct (@dispatch_failure_aborts _ dht stream 1%nat w0)
    with (fuel := 5%nat) as (tl & w' & _ & Hs & _);
    [vm_compute; reflexivity|vm_compute; reflexivity|vm_compute; reflexivity
    |vm_compute; reflexivity|vm_compute; reflexivity|vm_compute; reflexivity
    | |lia|].
  { right. left. eexists _, _, _, _. split; vm_compute; reflexivity. }
  split; [now rewrite Hs|]. vm_compute. auto.
Defined.

(** C9 on a stream that carries a one-way ADD_PROVIDER and then a
    FIND_NODE: the second pass writes the response and records a quarter
    of a millisecond, and the session goes on to the mode check and the
    read of the next pass. *)
Lemma response_run :
  let w0 := start [] [addProviderFrame; findNodeFrame] [] in
  exists t w tl w' (rest : list (@Event fixture)),
    continues 1 dht stream w0 = Some (t, w) /\
    writes t = [] /\
    iteration dht stream (RemotePeer stream) w = (Continue, tl, w') /\
    writes tl = [({| Type_ := FIND_NODE; Key := [x61; x62] |}, None)] /\
    records tl
      = [(InboundRequestLatency, S754_finite false 4503599627370496 (-54),
          "FIND_NODE")] /\
    snd (fst (handleNewMessage 5 dht stream w0))
      = EvAfterFunc dhtStreamIdleTimeout
          :: t ++ tl ++ EvGetMode modeServer :: EvReadMsg [] (Some io_EOF) :: rest.
Proof.
  intros w0.
  edestruct (@response_written_unless_nil _ dht stream 1%nat w0)
    with (fuel := 5%nat)
    as (o & tl & w' & Hi & _ & _ & Hsome & _ & Hround);
    [vm_compute; reflexivity|vm_compute; reflexivity|vm_compute; reflexivity
    |vm_compute; reflexivity|vm_compute; reflexivity|vm_compute; reflexivity
    |vm_compute; reflexivity|vm_compute; reflexivity|lia|].
  destruct (Hsome _ eq_refl) as (we & w6 & Hw & Hwrites & _ & Hok).
  vm_compute in Hw. injection Hw as <- <-.
  edestruct (Hok eq_refl) as (Ho & Hw' & Hrec & _); [vm_compute; reflexivity|].
  subst o w'.
  destruct (proj2 (Hround eq_refl)) as (r & next & rest & w'' & Hs & _ & Hnext);
    [lia|].
  destruct (Hnext eq_refl) as (next' & ->).
  eexists _, _, tl, _, (next' ++ rest).
  split; [vm_compute; reflexivity|]. split; [reflexivity|].
  split; [exact Hi|]. split; [exact Hwrites|]. split; [exact Hrec|].
  rewrite Hs. reflexivity.
Defined.

(** C10 on a stream that carries a PING and then a frame of an
    unregistered type: one error increment in the whole session, tagged
    with that type, and the session returns [false]. *)
Lemma error_count_run :
  let w0 := start [] [pingFrame; unknownTypeFrame] [] in
  addsOf ReceivedMessageErrors (snd (fst (handleNewMessage 5 dht stream w0)))
    = [(1, "9")] /\
  fst (fst (handleNewMessage 5 dht stream w0)) = Some false.
Proof.
  intros w0.
  split; [vm_compute; reflexivity|].
  apply (proj1 (proj2 (error_counted_at_most_once dht stream 5 w0))).
  vm_compute. discriminate.
Defined.

(** X1 on a stream that carries one PING and ends. *)
Lemma watchdog_lifetime_run :
  let w0 := start [] [pingFrame] [] in
  arms (snd (fst (handleNewMessage 5 dht stream w0))) = [dhtStreamIdleTimeout] /\
  exists body,
    snd (fst (handleNewStream 5 dht stream w0))
      = EvAfterFunc dhtStreamIdleTimeout :: body ++ [EvTimerStop; EvClose] /\
    stops body = [].
Proof.
  intros w0.
  destruct (watchdog_armed_before_loop_stopped_on_return dht stream 5 w0)
    as (Ha & _ & Hret).
  split; [exact Ha|].
  destruct (Hret true) as (body & _ & _ & Hs & Hl); [vm_compute; reflexivity|].
  exists body. split; [exact Hl|exact Hs].
Defined.

(** X7 on a stream with two frames waiting, after one pass. *)
Lemma running_session_run :
  let w0 := start [] [pingFrame; findNodeFrame] [] in
  fst (fst (handleNewMessage 1 dht stream w0)) = None /\
  reads (snd (fst (handleNewMessage 1 dht stream w0))) = [pingFrame] /\
  List.length (handlerCalls (snd (fst (handleNewMessage 1 dht stream w0))))
    = 1%nat.
Proof.
  intros w0.
  destruct (running_session_consumes_a_frame_per_pass dht stream 1 w0)
    as (_ & _ & _ & _ & Hh & _); [vm_compute; reflexivity|].
  split; [vm_compute; reflexivity|]. split; [vm_compute; reflexivity|exact Hh].
Defined.

(** X8 on a stream that carries a one-way ADD_PROVIDER and ends. *)
Lemma orderly_run :
  let w0 := start [] [addProviderFrame] [] in
  fst (fst (handleNewMessage 5 dht stream w0)) = Some true /\
  exists k t w w1 b,
    continues k dht stream w0 = Some (t, w) /\
    getMode dht w = (modeServer, w1) /\
    fst (ReadMsg stream w1) = (b, Some io_EOF).
Proof.
  intros w0.
  eassert (Hs : handleNewMessage 5 dht stream w0 = (Some true, _, _))
    by (vm_compute; reflexivity).
  split; [now rewrite Hs|].
  destruct (orderly_only_on_eof dht stream 5 w0 Hs)
    as (k & t & w & w1 & b & _ & Hc & Hm & Hrd & _).
  exists k, t, w, w1, b. split; [exact Hc|]. split; [exact Hm|].
  now rewrite Hrd.
Defined.

(** X9 on a stream whose first read hands back two bytes with [io.EOF]. *)
Lemma eof_with_payload_run :
  let w0 := start [] [eofWithPayload; pingFrame] [] in
  fst (fst (handleNewMessage 5 dht stream w0)) = Some true /\
  adds (snd (fst (handleNewMessage 5 dht stream w0))) = [] /\
  inbox (snd (handleNewMessage 5 dht stream w0)) = [pingFrame].
Proof.
  intros w0.
  edestruct (@eof_with_payload_closes_orderly _ dht stream 0%nat w0)
    with (fuel := 5%nat) as (Hs & _);
    [vm_compute; reflexivity|vm_compute; reflexivity|vm_compute; reflexivity
    |simpl; lia|lia|].
  rewrite Hs. vm_compute. auto.
Defined.

(** X10 on a node whose hook turns every request into a FIND_NODE, for a
    PING frame: counted as PING, looked up and handled as FIND_NODE. *)
Lemma request_hook_run :
  let w0 := start [] [pingFrame] [] in
  let tl := snd (fst (iteration dhtWithHook stream (RemotePeer stream) w0)) in
  hookCalls tl = [{| Type_ := PING; Key := [] |}] /\
  lookups tl = [FIND_NODE] /\
  handlerCalls tl = [{| Type_ := FIND_NODE; Key := [] |}] /\
  tags tl = ["PING"; "PING"; "PING"].
Proof.
  intros w0 tl.
  edestruct (proj2 (request_hook_between_receipt_and_lookup dhtWithHook stream)
                   w0)
    as (Hc & _ & Hl & Hh & _);
    [vm_compute; reflexivity|vm_compute; reflexivity|vm_compute; reflexivity
    |vm_compute; reflexivity|].
  split; [exact Hc|]. split; [exact Hl|].
  split; [apply (Hh handleFindPeer); reflexivity|].
  vm_compute. reflexivity.
Defined.

(** X11 with the logger at debug level, on two streams whose first read
    hands back two bytes and an error: "stream reset" leaves no line,
    "unexpected EOF" leaves one; both are counted and end the session with
    [false]. *)
Lemma stream_reset_run :
  (let w0 := start [] [resetWithPayload] [] in
   let tl := snd (fst (iteration dhtVerbose streamVerbose
                                 (RemotePeer streamVerbose) w0)) in
   fst (fst (handleNewMessage 5 dhtVerbose streamVerbose w0)) = Some false /\
   logLines tl = [] /\
   adds tl = [(ReceivedMessages, 1, "UNKNOWN");
              (ReceivedMessageErrors, 1, "UNKNOWN");
              (ReceivedBytes, 2, "UNKNOWN")]) /\
  (let w0 := start [] [truncatedFrame] [] in
   let tl := snd (fst (iteration dhtVerbose streamVerbose
                                 (RemotePeer streamVerbose) w0)) in
   fst (fst (handleNewMessage 5 dhtVerbose streamVerbose w0)) = Some false /\
   logLines tl = ["error reading message"] /\
   adds tl = [(ReceivedMessages, 1, "UNKNOWN");
              (ReceivedMessageErrors, 1, "UNKNOWN");
              (ReceivedBytes, 2, "UNKNOWN")]).
Proof.
  split; intros w0 tl.
  - edestruct (@stream_reset_not_logged verbose dhtVerbose streamVerbose
                                        0%nat w0)
      with (fuel := 5%nat) as (Hs & Hquiet & _ & Ha);
      [vm_compute; reflexivity|vm_compute; reflexivity|vm_compute; reflexivity
      |discriminate|lia|].
    split; [exact Hs|]. split; [apply Hquiet; reflexivity|exact Ha].
  - edestruct (@stream_reset_not_logged verbose dhtVerbose streamVerbose
                                        0%nat w0)
      with (fuel := 5%nat) as (Hs & _ & Hloud & Ha);
      [vm_compute; reflexivity|vm_compute; reflexivity|vm_compute; reflexivity
      |discriminate|lia|].
    split; [exact Hs|]. split; [apply Hloud; discriminate|exact Ha].
Defined.

(** X12 on a history that sets 5, collects, sets 7 and collects twice. *)
Lemma gauge_run :
  runGauge [OpSet 5; OpCollect; OpSet 7; OpCollect; OpCollect] networkSize_init
    = ([(5, ("instance", "default")); (7, ("instance", "default"));
        (7, ("instance", "default"))], 7).
Proof.
  exact (proj1 (proj2 gauge_observes_last_size_set)
               [OpSet 5; OpCollect] 7 [OpCollect; OpCollect] networkSize_init
               eq_refl).
Defined.


(** X13 on a stream whose second frame is a GET_VALUE without key. *)
Lemma abort_cause_run :
  let w0 := start [] [pingFrame; getValueNoKeyFrame] [] in
  exists log w',
    handleNewMessage 5 dht stream w0 = (Some false, log, w') /\
    exists k t w,
      continues k dht stream w0 = Some (t, w) /\
      addsOf ReceivedMessageErrors log = [(1, "GET_VALUE")].
Proof.
  intros w0.
  eassert (Hs : handleNewMessage 5 dht stream w0 = (Some false, _, _))
    by (vm_compute; reflexivity).
  eexists _, _. split; [exact Hs|].
  destruct (abort_counted_unless_gate_or_empty_read dht stream 5 w0 Hs)
    as (k & t & w & _ & Hc & _).
  exists k, t, w. split; [exact Hc|]. vm_compute. reflexivity.
Defined.


End Runs.
